(** * The Modbus TCP socket framer and the transport base class of pymodbus

    A shallow embedding of [pymodbus/framer/socket_framer.py]
    ([ModbusSocketFramer]) and of [pymodbus/transport/transport_base.py]
    ([BaseTransport], [BaseTransportProtocol]), followed by the properties of
    the framing core that are established on it.

    Python integers are [Z]; a [bytes] object is a list of [Byte.byte];
    the mutable framer object is a record that every method takes and
    returns; an exception is an explicit result that keeps the state the
    object had when it was raised. *)

From Stdlib Require Import Strings.String.
From Stdlib Require Import ZArith List Bool Lia.
From Stdlib Require Import Init.Byte.
From Stdlib Require Strings.Byte.
Import ListNotations.
Local Open Scope Z_scope.

Set Implicit Arguments.

(* ------------------------------------------------------------------ *)
(** ** Bytes, slices and [struct] *)

Abbreviation bytes := (list byte).

Definition byte_to_Z (b : byte) : Z := Z.of_N (Byte.to_N b).

(** Python's [len]. *)
Definition py_len (A : Type) (l : list A) : Z := Z.of_nat (length l).

(** How Python places a slice bound [i] in a sequence of [n] items. *)
Definition clamp (n i : Z) : Z :=
  if i <? 0 then Z.max 0 (n + i) else Z.min i n.

(** [l[i:]] *)
Definition slice_from (A : Type) (l : list A) (i : Z) : list A :=
  skipn (Z.to_nat (clamp (py_len l) i)) l.

(** [l[i:j]] *)
Definition slice (A : Type) (l : list A) (i j : Z) : list A :=
  let a := clamp (py_len l) i in
  let b := clamp (py_len l) j in
  firstn (Z.to_nat (b - a)) (skipn (Z.to_nat a) l).

(** [struct.pack(">B", z)]: one unsigned byte, an error out of range. *)
Definition pack_B (z : Z) : option bytes :=
  if (0 <=? z) && (z <=? 255) then
    match Byte.of_N (Z.to_N z) with
    | Some b => Some [b]
    | None => None
    end
  else None.

(** [struct.pack(">H", z)]: two bytes, most significant first. *)
Definition pack_H (z : Z) : option bytes :=
  if (0 <=? z) && (z <=? 65535) then
    match Byte.of_N (Z.to_N (z / 256)), Byte.of_N (Z.to_N (z mod 256)) with
    | Some hi, Some lo => Some [hi; lo]
    | _, _ => None
    end
  else None.

Definition unpack_H (hi lo : byte) : Z := byte_to_Z hi * 256 + byte_to_Z lo.

(** The MBAP header, the dict [{"tid", "pid", "len", "uid"}] of the framer. *)
Record mbap : Type := Mbap { tid : Z; pid : Z; len : Z; uid : Z }.

Definition zero_header : mbap := Mbap 0 0 0 0.

(** [struct.unpack(">HHHB", b)]: defined on exactly seven bytes. *)
Definition unpack_HHHB (b : bytes) : option mbap :=
  match b with
  | [t1; t0; p1; p0; l1; l0; u] =>
      Some (Mbap (unpack_H t1 t0) (unpack_H p1 p0) (unpack_H l1 l0)
                 (byte_to_Z u))
  | _ => None
  end.

(** Modelled from the spec: [SOCKET_FRAME_HEADER], a constant of the
    [pymodbus.framer] package whose declaration is not part of the sources
    at hand.  The spec gives the MBAP prefix as [(tid: u16, pid: u16,
    length: u16, uid: u8)] with every multi-byte integer big-endian, and
    [buildPacket] packs five values with it, the last being the function
    code: the format is [">HHHBB"]. *)
Definition pack_SOCKET_FRAME_HEADER (t p l u f : Z) : option bytes :=
  match pack_H t, pack_H p, pack_H l, pack_B u, pack_B f with
  | Some bt, Some bp, Some bl, Some bu, Some bf =>
      Some (bt ++ bp ++ bl ++ bu ++ bf)
  | _, _, _, _, _ => None
  end.

(* ------------------------------------------------------------------ *)
(** ** The framer object *)

Record framer : Type := Framer { _buffer : bytes; _header : mbap }.

Definition _hsize : Z := 7.

(** [ModbusSocketFramer.__init__] *)
Definition init : framer := Framer [] zero_header.

(** A request or response handed to [buildPacket]: its header attributes
    and the bytes its [encode()] returns. *)
Record message : Type := Message {
  m_transaction_id : Z;
  m_protocol_id : Z;
  m_unit_id : Z;
  m_function_code : Z;
  m_encode : bytes
}.

Definition isFrameReady (st : framer) : bool :=
  _hsize <? py_len (_buffer st).

Definition addToFrame (st : framer) (msg : bytes) : framer :=
  Framer (_buffer st ++ msg) (_header st).

Definition advanceFrame (st : framer) : framer :=
  let length := _hsize + len (_header st) - 1 in
  Framer (slice_from (_buffer st) length) zero_header.

Definition resetFrame (st : framer) : framer :=
  Framer [] zero_header.

Definition getFrame (st : framer) : bytes :=
  let length := _hsize + len (_header st) - 1 in
  slice (_buffer st) _hsize length.

Definition getRawFrame (st : framer) : bytes := _buffer st.

(** What a call leaves behind when it does not return a value. *)
Inductive exn (R : Type) : Type :=
| StructError
| ModbusIOException (msg : string)
| InvalidMessageReceivedException (result : R).

Arguments StructError {R}.
Arguments ModbusIOException {R} msg.
Arguments InvalidMessageReceivedException {R} result.

(** [checkFrame]: the header is unpacked into the framer; a length below 2
    skips the frame, a complete frame answers [True]. *)
Definition checkFrame (R : Type) (st : framer) : framer * (exn R + bool) :=
  if isFrameReady st then
    match unpack_HHHB (slice (_buffer st) 0 _hsize) with
    | None => (st, inl StructError)
    | Some h =>
        let st1 := Framer (_buffer st) h in
        if len h <? 2 then (advanceFrame st1, inr false)
        else if len h <=? py_len (_buffer st1) - _hsize + 1 then (st1, inr true)
        else (st1, inr false)
    end
  else (st, inr false).

(** [buildPacket] *)
Definition buildPacket (m : message) : option bytes :=
  let data := m_encode m in
  match pack_SOCKET_FRAME_HEADER (m_transaction_id m) (m_protocol_id m)
          (py_len data + 2) (m_unit_id m) (m_function_code m) with
  | Some packet => Some (packet ++ data)
  | None => None
  end.

(** The [unit] argument of [processIncomingPacket]: one unit id or a list. *)
Inductive unit_arg : Type :=
| OneUnit (u : Z)
| UnitList (us : list Z).

Definition unit_list (u : unit_arg) : list Z :=
  match u with
  | OneUnit u => [u]
  | UnitList us => us
  end.

(** How a call ends. *)
Inductive outcome (R : Type) : Type :=
| Returned
| Raised (e : exn R).

Arguments Returned {R}.
Arguments Raised {R} e.

Section Framer.

(** The decoded PDU objects, the decoder the framer was built with
    ([self.decoder.decode], [None] when it cannot decode), and the
    [function_code] attribute of a decoded object. *)
Variable R : Type.
Variable decode : bytes -> option R.
Variable function_code : R -> Z.

(** [_validate_unit_id] is inherited from the [ModbusFramer] base class,
    which is declared outside the sources at hand: the framer is
    parametrised by it. *)
Variable _validate_unit_id : framer -> list Z -> bool -> bool.

(** What the callback receives: the decoded object after
    [populateResult] has set its three header attributes. *)
Record delivered : Type := Delivered {
  response : R;
  transaction_id : Z;
  protocol_id : Z;
  unit_id : Z
}.

Definition populateResult (st : framer) (result : R) : delivered :=
  Delivered result (tid (_header st)) (pid (_header st)) (uid (_header st)).

(** [_process]: nothing is consumed when the decoder or the error check
    raises; otherwise the frame is skipped and the result goes to the
    callback. *)
Definition _process (st : framer) (error : bool)
  : framer * (exn R + delivered) :=
  let data := if error then getRawFrame st else getFrame st in
  match decode data with
  | None => (st, inl (ModbusIOException "Unable to decode request"))
  | Some result =>
      if error && (function_code result <? 128) then
        (st, inl (InvalidMessageReceivedException result))
      else (advanceFrame st, inr (populateResult st result))
  end.

(** The [while True] loop of [processIncomingPacket]; [cb] collects what
    the callback has been called with, oldest first.  [None] only when
    [fuel] runs out. *)
Fixpoint process_loop (fuel : nat) (st : framer) (units : list Z)
    (single : bool) (cb : list delivered)
  : option (framer * list delivered * outcome R) :=
  match fuel with
  | O => None
  | S fuel' =>
      if isFrameReady st then
        match checkFrame R st with
        | (st1, inl e) => Some (st1, cb, Raised e)
        | (st1, inr true) =>
            if _validate_unit_id st1 units single then
              match _process st1 false with
              | (st2, inl e) => Some (st2, cb, Raised e)
              | (st2, inr r) => process_loop fuel' st2 units single (cb ++ [r])
              end
            else process_loop fuel' (resetFrame st1) units single cb
        | (st1, inr false) =>
            process_loop fuel' (resetFrame st1) units single cb
        end
      else if negb (py_len (_buffer st) =? 0) then
        if len (_header st) <? 2 then
          match _process st true with
          | (st2, inl e) => Some (st2, cb, Raised e)
          | (st2, inr r) => Some (st2, cb ++ [r], Returned)
          end
        else Some (st, cb, Returned)
      else Some (st, cb, Returned)
  end.

(** [processIncomingPacket(data, callback, unit, single=...)]: the state
    of the framer afterwards, the calls made to the callback, and how
    the call ended. *)
Definition processIncomingPacket (st : framer) (data : bytes)
    (unit : unit_arg) (single : bool)
  : option (framer * list delivered * outcome R) :=
  let st1 := addToFrame st data in
  process_loop (S (length (_buffer st1))) st1 (unit_list unit) single [].

End Framer.

Arguments Delivered {R} response transaction_id protocol_id unit_id.

(** Modelled from the spec: [_validate_unit_id], the helper of the
    [ModbusFramer] base class that [processIncomingPacket] calls and whose
    body is not part of the sources at hand.  By the spec a frame whose
    unit id mismatches is dropped, and [processIncomingPacket] documents its
    [unit] argument as "process if unit id matches, ignore otherwise": the
    frame is accepted when single mode is on or when the unit id of the
    parsed header is one of the accepted units. *)
Definition spec_validate_unit_id (st : framer) (units : list Z)
    (single : bool) : bool :=
  single || existsb (Z.eqb (uid (_header st))) units.

(* ------------------------------------------------------------------ *)
(** ** Callers of the framer *)

Section Feeding.

Variable R : Type.
Variable decode : bytes -> option R.
Variable function_code : R -> Z.
Variable _validate_unit_id : framer -> list Z -> bool -> bool.

Let pip := processIncomingPacket decode function_code _validate_unit_id.

(** A connection that hands the chunks it receives to the framer, in
    order, and stops at the first exception; [cb] is what the callback
    has received so far. *)
Fixpoint feed (st : framer) (chunks : list bytes) (unit : unit_arg)
    (single : bool) (cb : list (delivered R))
  : option (framer * list (delivered R) * outcome R) :=
  match chunks with
  | [] => Some (st, cb, Returned)
  | c :: cs =>
      match pip st c unit single with
      | Some (st1, ds, Returned) => feed st1 cs unit single (cb ++ ds)
      | Some (st1, ds, Raised e) => Some (st1, cb ++ ds, Raised e)
      | None => None
      end
  end.

(** The states a framer object can be in: as constructed, or after any
    call of [processIncomingPacket], whether it returned or raised. *)
Inductive reachable : framer -> Prop :=
| reachable_init : reachable init
| reachable_call : forall st data unit single st1 ds o,
    reachable st ->
    pip st data unit single = Some (st1, ds, o) ->
    reachable st1.

End Feeding.

(** A valid TCP stream: the packets of well-formed messages, one after the
    other. *)
Inductive valid_stream : bytes -> Prop :=
| valid_nil : valid_stream []
| valid_cons : forall m packet rest,
    buildPacket m = Some packet ->
    valid_stream rest ->
    valid_stream (packet ++ rest).

(** The messages [struct.pack] accepts in [buildPacket]. *)
Definition wf_message (m : message) : Prop :=
  0 <= m_transaction_id m <= 65535 /\
  0 <= m_protocol_id m <= 65535 /\
  py_len (m_encode m) + 2 <= 65535 /\
  0 <= m_unit_id m <= 255 /\
  0 <= m_function_code m <= 255.

(** The three shapes a frame buffer may have between two decode attempts. *)
Definition buffer_empty (st : framer) : Prop := _buffer st = [].

Definition buffer_short_prefix (st : framer) : Prop :=
  0 < py_len (_buffer st) < _hsize.

Definition buffer_incomplete_body (st : framer) : Prop :=
  exists h, unpack_HHHB (slice (_buffer st) 0 _hsize) = Some h /\
            py_len (_buffer st) - _hsize + 1 < len h.

(** A decoder for examples: the decoded object is the PDU itself, and an
    empty PDU or the function code 0 is not decoded. *)
Definition pdu_decode (data : bytes) : option bytes :=
  match data with
  | [] => None
  | fc :: _ => if byte_to_Z fc =? 0 then None else Some data
  end.

Definition pdu_function_code (r : bytes) : Z :=
  match r with
  | [] => 0
  | fc :: _ => byte_to_Z fc
  end.

(** The four ways [checkFrame] ends; it never raises. *)
Inductive checkFrame_view (R : Type) (st : framer)
  : framer * (exn R + bool) -> Prop :=
| cf_not_ready :
    isFrameReady st = false ->
    checkFrame_view st (st, inr false)
| cf_short : forall h,
    isFrameReady st = true ->
    unpack_HHHB (slice (_buffer st) 0 _hsize) = Some h ->
    0 <= len h < 2 ->
    checkFrame_view st (advanceFrame (Framer (_buffer st) h), inr false)
| cf_complete : forall h,
    isFrameReady st = true ->
    unpack_HHHB (slice (_buffer st) 0 _hsize) = Some h ->
    2 <= len h <= py_len (_buffer st) - 6 ->
    checkFrame_view st (Framer (_buffer st) h, inr true)
| cf_incomplete : forall h,
    isFrameReady st = true ->
    unpack_HHHB (slice (_buffer st) 0 _hsize) = Some h ->
    2 <= len h -> py_len (_buffer st) - 6 < len h ->
    checkFrame_view st (Framer (_buffer st) h, inr false).

(** What holds of the header between two calls: it is zero, or it is the
    header of a complete frame still at the head of the buffer. *)
Definition header_inv (st : framer) : Prop :=
  _header st = zero_header \/
  2 <= len (_header st) <= py_len (_buffer st) - 6.

(** Byte strings for examples.  The read-coils response of unit 0x11 to
    transaction 1, and its two fragments. *)
Definition read_coils_response : bytes :=
  [x00; x01; x00; x00; x00; x04; x11; x01; x01; x01].

Definition fragment_1 : bytes := [x00; x01; x00; x00; x00; x04; x11; x01].

Definition fragment_2 : bytes := [x01; x01].

(** A header whose length field is 0, and two bytes after it. *)
Definition zero_length_frame : bytes :=
  [x00; x01; x00; x00; x00; x00; x11; x01; x02].

(** The read-coils response with protocol id 1. *)
Definition nonzero_pid_frame : bytes :=
  [x00; x01; x00; x01; x00; x04; x11; x01; x01; x01].

(** The same response from unit 0x22, to transaction 2. *)
Definition other_unit_frame : bytes :=
  [x00; x02; x00; x00; x00; x04; x22; x01; x01; x01].

(** A complete frame whose PDU is the function code 0 alone. *)
Definition undecodable_frame : bytes :=
  [x00; x01; x00; x00; x00; x02; x11; x00].

(* ------------------------------------------------------------------ *)
(** ** Header inspection and streams of packets *)

(** Modelled from the spec: unpacking with [SOCKET_FRAME_HEADER], the
    constant of the [pymodbus.framer] package read as [">HHHBB"] above;
    [struct.unpack] is defined on exactly eight bytes. *)
Definition unpack_SOCKET_FRAME_HEADER (b : bytes)
  : option (Z * Z * Z * Z * Z) :=
  match b with
  | [t1; t0; p1; p0; l1; l0; u; f] =>
      Some (unpack_H t1 t0, unpack_H p1 p0, unpack_H l1 l0, byte_to_Z u,
            byte_to_Z f)
  | _ => None
  end.

(** A Python dict with string keys and integer values, in insertion
    order. *)
Definition dict : Type := list (string * Z).

(** [dict.get(key)] *)
Fixpoint dict_get (key : string) (d : dict) : option Z :=
  match d with
  | [] => None
  | (k, v) :: d' => if String.eqb key k then Some v else dict_get key d'
  end.

(** [decode_data(data)]: the header fields and the function code of a
    packet, the empty dict when there are not more than seven bytes;
    [None] stands for the error of [struct.unpack]. *)
Definition decode_data (data : bytes) : option dict :=
  if _hsize <? py_len data then
    match unpack_SOCKET_FRAME_HEADER (slice data 0 (_hsize + 1)) with
    | Some (t, p, l, u, f) =>
        Some [("tid"%string, t); ("pid"%string, p); ("length"%string, l);
              ("unit"%string, u); ("fcode"%string, f)]
    | None => None
    end
  else Some [].

(** The header [buildPacket] writes for a message. *)
Definition header_of (m : message) : mbap :=
  Mbap (m_transaction_id m) (m_protocol_id m) (py_len (m_encode m) + 2)
       (m_unit_id m).

(** A sender that builds the packets of its messages, in order. *)
Fixpoint build_packets (ms : list message) : option (list bytes) :=
  match ms with
  | [] => Some []
  | m :: ms' =>
      match buildPacket m, build_packets ms' with
      | Some p, Some ps => Some (p :: ps)
      | _, _ => None
      end
  end.

Section Expected.

Variable R : Type.
Variable decode : bytes -> option R.

(** What the receiver of a message is to hand to its callback: the PDU
    (function code, then payload) decoded, with the header of the
    message. *)
Definition decoded (m : message) : option (delivered R) :=
  match pack_B (m_function_code m) with
  | Some fcb =>
      match decode (fcb ++ m_encode m) with
      | Some r =>
          Some (Delivered r (m_transaction_id m) (m_protocol_id m)
                          (m_unit_id m))
      | None => None
      end
  | None => None
  end.

End Expected.

(* ------------------------------------------------------------------ *)
(** ** The transport base class *)

Module Transport.

Section Base.

(** The asyncio objects a transport meets: event loops, connections,
    exceptions. *)
Variable Loop : Type.
Variable Conn : Type.
Variable Exc : Type.

(** What a logged callback event carries. *)
Inductive extras : Type :=
| ExTransport (t : Conn)
| ExData (d : bytes)
| ExExc (e : option Exc).

(** What the world sees of a callback object: a line on the debug log,
    or whatever a callback supplied by the user does. *)
Inductive event (U : Type) : Type :=
| LogDebug (title : string) (x : extras)
| UserEffect (u : U).

Variable U : Type.

Definition trace : Type := list (event U).

(** A callback object: the four [cb_] methods of a
    [BaseTransportProtocol] or of a subclass of it. *)
Record callbacks : Type := Callbacks {
  cb_connection_made : Conn -> trace -> trace;
  cb_data_received : bytes -> trace -> trace;
  cb_data_sent : option Exc -> trace -> trace;
  cb_connection_lost : option Exc -> trace -> trace
}.

Definition _log_event (title : string) (x : extras) (w : trace) : trace :=
  w ++ [LogDebug U title x].

(** [BaseTransportProtocol()]: every method logs the event. *)
Definition BaseTransportProtocol : callbacks :=
  Callbacks
    (fun t => _log_event "Connection made" (ExTransport t))
    (fun d => _log_event "Data received" (ExData d))
    (fun e => _log_event "Data sent" (ExExc e))
    (fun e => _log_event "Connection lost" (ExExc e)).

Record BaseTransport : Type := MkBaseTransport {
  _is_server : bool;
  _cbs : callbacks;
  _loop : Loop;
  _transport : option Conn;
  _protocol : option Conn
}.

(** [BaseTransport.__init__(is_server, callbacks)];
    [asyncio.get_running_loop()] raises when no loop is running. *)
Definition __init__ (running_loop : option Loop) (is_server : bool)
    (cbs : option callbacks) : option BaseTransport :=
  match running_loop with
  | None => None
  | Some l => Some (MkBaseTransport is_server BaseTransportProtocol l None None)
  end.

Definition connection_made (self : BaseTransport) (t : Conn) (w : trace)
  : BaseTransport * trace :=
  (MkBaseTransport (_is_server self) (_cbs self) (_loop self) (Some t)
                   (_protocol self),
   cb_connection_made (_cbs self) t w).

Definition data_received (self : BaseTransport) (data : bytes) (w : trace)
  : trace :=
  cb_data_received (_cbs self) data w.

Definition connection_lost (self : BaseTransport) (e : option Exc)
    (w : trace) : trace :=
  cb_connection_lost (_cbs self) e w.

End Base.

(** A callback object of a user, for examples: each method leaves a mark
    of its own. *)
Definition user_callbacks : callbacks unit unit string :=
  Callbacks
    (fun _ w => w ++ [UserEffect unit unit "cb_connection_made"%string])
    (fun _ w => w ++ [UserEffect unit unit "cb_data_received"%string])
    (fun _ w => w ++ [UserEffect unit unit "cb_data_sent"%string])
    (fun _ w => w ++ [UserEffect unit unit "cb_connection_lost"%string]).

End Transport.

(* ------------------------------------------------------------------ *)
(** ** Bytes and slices *)

Lemma byte_to_Z_range (b : byte) : 0 <= byte_to_Z b <= 255.
Proof.
  unfold byte_to_Z. pose proof (Byte.to_N_bounded b). lia.
Qed.

Lemma unpack_H_range (hi lo : byte) : 0 <= unpack_H hi lo <= 65535.
Proof.
  unfold unpack_H.
  pose proof (byte_to_Z_range hi). pose proof (byte_to_Z_range lo). lia.
Qed.

Lemma pack_B_ok (z : Z) :
  0 <= z <= 255 -> exists b, pack_B z = Some [b] /\ byte_to_Z b = z.
Proof.
  intros Hz. unfold pack_B.
  replace ((0 <=? z) && (z <=? 255)) with true
    by (symmetry; apply andb_true_iff; split; apply Z.leb_le; lia).
  destruct (Byte.of_N (Z.to_N z)) as [b|] eqn:E.
  - exists b. split; [reflexivity|].
    unfold byte_to_Z. rewrite (Byte.to_of_N _ E). lia.
  - apply Byte.of_N_None_iff in E. lia.
Qed.

Lemma pack_H_ok (z : Z) :
  0 <= z <= 65535 ->
  exists hi lo, pack_H z = Some [hi; lo] /\ unpack_H hi lo = z.
Proof.
  intros Hz. unfold pack_H.
  replace ((0 <=? z) && (z <=? 65535)) with true
    by (symmetry; apply andb_true_iff; split; apply Z.leb_le; lia).
  assert (Hq : 0 <= z / 256 < 256)
    by (split; [apply Z.div_pos; lia | apply Z.div_lt_upper_bound; lia]).
  assert (Hr : 0 <= z mod 256 < 256) by (apply Z.mod_pos_bound; lia).
  destruct (Byte.of_N (Z.to_N (z / 256))) as [hi|] eqn:Ehi;
    [| apply Byte.of_N_None_iff in Ehi; lia].
  destruct (Byte.of_N (Z.to_N (z mod 256))) as [lo|] eqn:Elo;
    [| apply Byte.of_N_None_iff in Elo; lia].
  exists hi, lo. split; [reflexivity|].
  unfold unpack_H, byte_to_Z.
  rewrite (Byte.to_of_N _ Ehi), (Byte.to_of_N _ Elo).
  rewrite !Z2N.id by lia.
  pose proof (Z.div_mod z 256). lia.
Qed.

Lemma py_len_nonneg (A : Type) (l : list A) : 0 <= py_len l.
Proof. unfold py_len. lia. Qed.

Lemma py_len_app (A : Type) (l1 l2 : list A) :
  py_len (l1 ++ l2) = py_len l1 + py_len l2.
Proof. unfold py_len. rewrite length_app. lia. Qed.

Lemma slice_from_nonneg (A : Type) (l : list A) (i : Z) :
  0 <= i -> slice_from l i = skipn (Z.to_nat i) l.
Proof.
  intros Hi. unfold slice_from, clamp, py_len.
  destruct (i <? 0) eqn:E; [apply Z.ltb_lt in E; lia|].
  destruct (Z.le_gt_cases i (Z.of_nat (length l))).
  - rewrite Z.min_l by lia. reflexivity.
  - rewrite Z.min_r by lia. rewrite Nat2Z.id.
    rewrite !skipn_all2 by lia. reflexivity.
Qed.

Lemma slice_nonneg (A : Type) (l : list A) (i j : Z) :
  0 <= i -> 0 <= j ->
  slice l i j = firstn (Z.to_nat j - Z.to_nat i) (skipn (Z.to_nat i) l).
Proof.
  intros Hi Hj. unfold slice, clamp, py_len.
  destruct (i <? 0) eqn:Ei; [apply Z.ltb_lt in Ei; lia|].
  destruct (j <? 0) eqn:Ej; [apply Z.ltb_lt in Ej; lia|].
  set (n := length l).
  destruct (Z.le_gt_cases i (Z.of_nat n)) as [Hin|Hin].
  - rewrite (Z.min_l i) by lia.
    destruct (Z.le_gt_cases j (Z.of_nat n)) as [Hjn|Hjn].
    + rewrite Z.min_l by lia. f_equal. lia.
    + rewrite Z.min_r by lia.
      rewrite !firstn_all2; try reflexivity;
        rewrite length_skipn; fold n; lia.
  - rewrite (Z.min_r i) by lia. rewrite Nat2Z.id.
    rewrite !skipn_all2 by (fold n; lia).
    rewrite !firstn_nil. reflexivity.
Qed.

Lemma length_slice_from (A : Type) (l : list A) (i : Z) :
  0 <= i -> length (slice_from l i) = (length l - Z.to_nat i)%nat.
Proof.
  intros Hi. rewrite slice_from_nonneg by assumption. apply length_skipn.
Qed.

(* ------------------------------------------------------------------ *)
(** ** One decode attempt *)

Lemma isFrameReady_true (st : framer) :
  isFrameReady st = true <-> 7 < py_len (_buffer st).
Proof. unfold isFrameReady, _hsize. apply Z.ltb_lt. Qed.

Lemma isFrameReady_false (st : framer) :
  isFrameReady st = false <-> py_len (_buffer st) <= 7.
Proof. unfold isFrameReady, _hsize. apply Z.ltb_ge. Qed.

(** The first seven bytes of a buffer, when it has them. *)
Lemma slice_header (b : bytes) :
  7 <= py_len b ->
  exists t1 t0 p1 p0 l1 l0 u rest,
    b = [t1; t0; p1; p0; l1; l0; u] ++ rest /\
    slice b 0 _hsize = [t1; t0; p1; p0; l1; l0; u].
Proof.
  intros Hb. unfold py_len in Hb.
  destruct b as [|t1 [|t0 [|p1 [|p0 [|l1 [|l0 [|u rest]]]]]]];
    simpl in Hb; try lia.
  exists t1, t0, p1, p0, l1, l0, u, rest. split; [reflexivity|].
  rewrite slice_nonneg by (unfold _hsize; lia). reflexivity.
Qed.

Lemma unpack_header (b : bytes) :
  7 <= py_len b ->
  exists h, unpack_HHHB (slice b 0 _hsize) = Some h /\ 0 <= len h <= 65535.
Proof.
  intros Hb.
  destruct (slice_header b Hb)
    as (t1 & t0 & p1 & p0 & l1 & l0 & u & rest & _ & Hs).
  rewrite Hs. eexists. split; [reflexivity|].
  simpl. apply unpack_H_range.
Qed.

Lemma checkFrameP (R : Type) (st : framer) :
  checkFrame_view st (checkFrame R st).
Proof.
  unfold checkFrame. destruct (isFrameReady st) eqn:Hr.
  - pose proof (proj1 (isFrameReady_true st) Hr) as Hlen.
    destruct (unpack_header (_buffer st)) as (h & Hh & Hrange); [lia|].
    rewrite Hh. cbv zeta.
    destruct (len h <? 2) eqn:E2.
    + apply Z.ltb_lt in E2. apply cf_short; auto. lia.
    + apply Z.ltb_ge in E2. cbn [_buffer]. unfold _hsize.
      destruct (len h <=? py_len (_buffer st) - 7 + 1) eqn:E3.
      * apply Z.leb_le in E3. apply cf_complete; auto. lia.
      * apply Z.leb_gt in E3. apply cf_incomplete; auto. lia.
  - apply cf_not_ready; assumption.
Qed.

Lemma advanceFrame_buffer (st : framer) :
  0 <= len (_header st) ->
  _buffer (advanceFrame st) =
  skipn (Z.to_nat (6 + len (_header st))) (_buffer st).
Proof.
  intros H. unfold advanceFrame, _hsize. cbn [_buffer].
  rewrite slice_from_nonneg by lia. f_equal. lia.
Qed.

Lemma advanceFrame_header (st : framer) :
  _header (advanceFrame st) = zero_header.
Proof. reflexivity. Qed.

Section Loop.

Variable R : Type.
Variable decode : bytes -> option R.
Variable function_code : R -> Z.
Variable _validate_unit_id : framer -> list Z -> bool -> bool.

Local Abbreviation loop :=
  (process_loop decode function_code _validate_unit_id).
Local Abbreviation proc := (_process decode function_code).

(** [_process] either raises and leaves the framer as it is, or skips
    the frame. *)
Lemma _process_cases (st : framer) (error : bool) :
  (exists e, proc st error = (st, inl e)) \/
  (exists r, proc st error = (advanceFrame st, inr (populateResult st r))
             /\ (error = true -> 128 <= function_code r)).
Proof.
  unfold _process.
  destruct (decode (if error then getRawFrame st else getFrame st)) as [r|].
  - destruct (error && (function_code r <? 128)) eqn:E.
    + left. eauto.
    + right. exists r. split; [reflexivity|].
      intros ->. simpl in E. apply Z.ltb_ge in E. assumption.
  - left. eauto.
Qed.

(** The loop ends whenever its fuel exceeds the length of the buffer. *)
Lemma process_loop_terminates (fuel : nat) :
  forall st units single cb,
    (length (_buffer st) < fuel)%nat ->
    exists res, loop fuel st units single cb = Some res.
Proof.
  induction fuel as [|fuel IH]; intros st units single cb Hf; [lia|].
  cbn [process_loop].
  destruct (isFrameReady st) eqn:Hr.
  - pose proof (proj1 (isFrameReady_true st) Hr) as Hlen.
    unfold py_len in Hlen.
    destruct (checkFrameP R st) as [Hn|h _ _ _|h _ Hh Hc|h _ _ _ _];
      try (apply IH; cbn; lia).
    destruct (_validate_unit_id _ units single); [|apply IH; cbn; lia].
    destruct (_process_cases (Framer (_buffer st) h) false)
      as [(e & He)|(r & He & _)]; rewrite He.
    + eauto.
    + apply IH. rewrite advanceFrame_buffer by (cbn [_header len]; lia).
      rewrite length_skipn. cbn [_buffer _header len]. lia.
  - destruct (negb (py_len (_buffer st) =? 0)); [|eauto].
    destruct (len (_header st) <? 2); [|eauto].
    destruct (_process decode function_code st true) as [st2 [e|r]]; eauto.
Qed.

(** Fuel beyond that changes nothing. *)
Lemma process_loop_fuel (fuel1 : nat) :
  forall fuel2 st units single cb,
    (length (_buffer st) < fuel1)%nat ->
    (length (_buffer st) < fuel2)%nat ->
    loop fuel1 st units single cb = loop fuel2 st units single cb.
Proof.
  induction fuel1 as [|fuel1 IH]; intros fuel2 st units single cb H1 H2;
    [lia|].
  destruct fuel2 as [|fuel2]; [lia|].
  cbn [process_loop].
  destruct (isFrameReady st) eqn:Hr; [|reflexivity].
  pose proof (proj1 (isFrameReady_true st) Hr) as Hlen.
  unfold py_len in Hlen.
  destruct (checkFrameP R st) as [Hn|h _ _ _|h _ Hh Hc|h _ _ _ _];
    try (apply IH; cbn; lia).
  destruct (_validate_unit_id _ units single); [|apply IH; cbn; lia].
  destruct (_process_cases (Framer (_buffer st) h) false)
    as [(e & He)|(r & He & _)]; rewrite He.
  - reflexivity.
  - apply IH; rewrite advanceFrame_buffer by (cbn [_header len]; lia);
      rewrite length_skipn; cbn [_buffer _header len]; lia.
Qed.

(** What the loop does after [resetFrame]: it stops at once. *)
Lemma process_loop_reset (fuel : nat) (units : list Z) (single : bool)
    (cb : list (delivered R)) :
  (0 < fuel)%nat ->
  loop fuel (Framer [] zero_header) units single cb =
  Some (Framer [] zero_header, cb, Returned).
Proof.
  intros Hf. destruct fuel as [|fuel]; [lia|]. reflexivity.
Qed.

(** A failed frame check on a ready buffer empties the framer. *)
Lemma process_loop_check_failed (fuel : nat) (st st1 : framer)
    (units : list Z) (single : bool) (cb : list (delivered R)) :
  (length (_buffer st) < fuel)%nat ->
  isFrameReady st = true ->
  checkFrame R st = (st1, inr false) ->
  loop fuel st units single cb = Some (Framer [] zero_header, cb, Returned).
Proof.
  intros Hf Hr Hc. destruct fuel as [|fuel]; [lia|].
  apply isFrameReady_true in Hr as Hlen. unfold py_len in Hlen.
  cbn [process_loop]. rewrite Hr, Hc.
  apply process_loop_reset. lia.
Qed.

(** So does a complete frame that fails the unit check. *)
Lemma process_loop_unit_rejected (fuel : nat) (st st1 : framer)
    (units : list Z) (single : bool) (cb : list (delivered R)) :
  (length (_buffer st) < fuel)%nat ->
  isFrameReady st = true ->
  checkFrame R st = (st1, inr true) ->
  _validate_unit_id st1 units single = false ->
  loop fuel st units single cb = Some (Framer [] zero_header, cb, Returned).
Proof.
  intros Hf Hr Hc Hv. destruct fuel as [|fuel]; [lia|].
  apply isFrameReady_true in Hr as Hlen. unfold py_len in Hlen.
  cbn [process_loop]. rewrite Hr, Hc, Hv.
  apply process_loop_reset. lia.
Qed.

(** A complete frame whose body the decoder rejects stops the loop with
    the exception, the frame still at the head of the buffer. *)
Lemma process_loop_decode_failed (fuel : nat) (st st1 : framer)
    (units : list Z) (single : bool) (cb : list (delivered R)) :
  (length (_buffer st) < fuel)%nat ->
  isFrameReady st = true ->
  checkFrame R st = (st1, inr true) ->
  _validate_unit_id st1 units single = true ->
  decode (getFrame st1) = None ->
  loop fuel st units single cb =
  Some (st1, cb, Raised (ModbusIOException "Unable to decode request")).
Proof.
  intros Hf Hr Hc Hv Hd. destruct fuel as [|fuel]; [lia|].
  cbn [process_loop]. rewrite Hr, Hc, Hv.
  unfold _process. rewrite Hd. reflexivity.
Qed.

(** A complete, accepted, decodable frame is delivered and skipped, and
    the loop goes on with what follows it. *)
Lemma process_loop_deliver (fuel : nat) (st st1 : framer)
    (units : list Z) (single : bool) (cb : list (delivered R)) (r : R) :
  (length (_buffer st) < fuel)%nat ->
  isFrameReady st = true ->
  checkFrame R st = (st1, inr true) ->
  _validate_unit_id st1 units single = true ->
  decode (getFrame st1) = Some r ->
  loop fuel st units single cb =
  loop (S (length (_buffer (advanceFrame st1)))) (advanceFrame st1) units
       single (cb ++ [populateResult st1 r]).
Proof.
  intros Hf Hr Hc Hv Hd. destruct fuel as [|fuel]; [lia|].
  remember (S (length (_buffer (advanceFrame st1)))) as fuel2 eqn:E2.
  cbn [process_loop]. rewrite Hr, Hc, Hv.
  unfold _process. rewrite Hd. cbn [andb].
  apply isFrameReady_true in Hr as Hlen. unfold py_len in Hlen.
  pose proof (checkFrameP R st) as Hview. rewrite Hc in Hview.
  inversion Hview as [| | h _ Hh Hrange |]; subst.
  assert (length (_buffer (advanceFrame (Framer (_buffer st) h)))
          < length (_buffer st))%nat.
  { rewrite advanceFrame_buffer by (cbn [_header len]; lia).
    rewrite length_skipn. cbn [_buffer _header len]. lia. }
  apply process_loop_fuel; lia.
Qed.

End Loop.

(* ------------------------------------------------------------------ *)
(** ** A frame at the head of the buffer *)

Lemma unpack_HHHB_length (b : bytes) (h : mbap) :
  unpack_HHHB b = Some h -> length b = 7%nat.
Proof.
  destruct b as [|t1 [|t0 [|p1 [|p0 [|l1 [|l0 [|u [|x rest]]]]]]]];
    simpl; intros H; try discriminate; reflexivity.
Qed.

Lemma firstn_exact (A : Type) (l1 l2 : list A) (n : nat) :
  n = length l1 -> firstn n (l1 ++ l2) = l1.
Proof.
  intros ->. rewrite firstn_app, Nat.sub_diag, firstn_all. simpl.
  apply app_nil_r.
Qed.

Lemma skipn_exact (A : Type) (l1 l2 : list A) (n : nat) :
  n = length l1 -> skipn n (l1 ++ l2) = l2.
Proof.
  intros ->. rewrite skipn_app, Nat.sub_diag, skipn_all. reflexivity.
Qed.

Section Head.

Variable R : Type.
Variables (hdr body rest : bytes) (h : mbap).
Hypothesis Hhdr : unpack_HHHB hdr = Some h.
Hypothesis Hlen : len h = py_len body + 1.
Hypothesis Hbody : body <> [].

Let buf := hdr ++ body ++ rest.

Lemma head_slice_header : slice buf 0 _hsize = hdr.
Proof.
  pose proof (unpack_HHHB_length _ Hhdr) as L.
  rewrite slice_nonneg by (unfold _hsize; lia).
  unfold buf. cbn [Z.to_nat]. rewrite Nat.sub_0_r. cbn [skipn].
  apply firstn_exact. unfold _hsize. rewrite L. reflexivity.
Qed.

Lemma head_body_length : (0 < length body)%nat.
Proof. destruct body; [congruence | simpl; lia]. Qed.

Lemma head_checkFrame (hdr0 : mbap) :
  checkFrame R (Framer buf hdr0) = (Framer buf h, inr true).
Proof.
  pose proof (unpack_HHHB_length _ Hhdr) as L.
  pose proof head_body_length as Lb.
  assert (Hpl : py_len buf = 7 + py_len body + py_len rest).
  { unfold buf. rewrite !py_len_app. unfold py_len at 1. rewrite L. lia. }
  pose proof (py_len_nonneg rest) as Hrest.
  assert (Hb : 1 <= py_len body) by (unfold py_len; lia).
  unfold checkFrame.
  replace (isFrameReady (Framer buf hdr0)) with true
    by (symmetry; apply isFrameReady_true; cbn [_buffer]; lia).
  cbn [_buffer]. rewrite head_slice_header, Hhdr. cbv zeta.
  replace (len h <? 2) with false by (symmetry; apply Z.ltb_ge; lia).
  cbn [_buffer]. unfold _hsize.
  replace (len h <=? py_len buf - 7 + 1) with true
    by (symmetry; apply Z.leb_le; lia).
  reflexivity.
Qed.

Lemma head_getFrame : getFrame (Framer buf h) = body.
Proof.
  pose proof (unpack_HHHB_length _ Hhdr) as L.
  unfold getFrame, _hsize. cbn [_buffer _header].
  rewrite slice_nonneg by (pose proof (py_len_nonneg body); lia).
  unfold buf. rewrite skipn_exact by (rewrite L; reflexivity).
  apply firstn_exact. rewrite Hlen. unfold py_len. lia.
Qed.

Lemma head_advanceFrame : advanceFrame (Framer buf h) = Framer rest zero_header.
Proof.
  pose proof (unpack_HHHB_length _ Hhdr) as L.
  unfold advanceFrame, _hsize. cbn [_buffer _header]. f_equal.
  rewrite slice_from_nonneg by (pose proof (py_len_nonneg body); lia).
  unfold buf. rewrite app_assoc.
  apply skipn_exact. rewrite length_app, L, Hlen. unfold py_len. lia.
Qed.

End Head.

(* ------------------------------------------------------------------ *)
(** ** Building packets *)

(** The packet of a well-formed message: seven header bytes that unpack
    to the message's header, the function code, the payload. *)
Lemma buildPacket_wf (m : message) :
  wf_message m ->
  exists hdr fcb,
    buildPacket m = Some (hdr ++ fcb :: m_encode m) /\
    unpack_HHHB hdr =
      Some (Mbap (m_transaction_id m) (m_protocol_id m)
                 (py_len (m_encode m) + 2) (m_unit_id m)) /\
    byte_to_Z fcb = m_function_code m.
Proof.
  intros (Ht & Hp & Hl & Hu & Hf).
  pose proof (py_len_nonneg (m_encode m)) as Hn.
  destruct (pack_H_ok Ht) as (t1 & t0 & Et & Ut).
  destruct (pack_H_ok Hp) as (p1 & p0 & Ep & Up).
  destruct (@pack_H_ok (py_len (m_encode m) + 2)) as (l1 & l0 & El & Ul);
    [lia|].
  destruct (pack_B_ok Hu) as (u & Eu & Uu).
  destruct (pack_B_ok Hf) as (f & Ef & Uf).
  exists [t1; t0; p1; p0; l1; l0; u], f.
  unfold buildPacket, pack_SOCKET_FRAME_HEADER.
  rewrite Et, Ep, El, Eu, Ef. cbn [app unpack_HHHB].
  rewrite Ut, Up, Ul, Uu. auto.
Qed.

(** C3: [buildPacket] emits a 7-byte big-endian MBAP header whose length
    field is the length of the PDU plus one, that is the number of bytes of
    unit id, function code and payload, or the length of the payload after
    the function code plus two; the read-coils request with tid 1, uid
    0x11, start 0 and count 1 is encoded as
    [00 01 00 00 00 06 11 01 00 00 00 01]. *)
Theorem buildPacket_header :
  (forall m : message,
     wf_message m ->
     exists packet fcb,
       buildPacket m = Some packet /\
       byte_to_Z fcb = m_function_code m /\
       slice_from packet _hsize = fcb :: m_encode m /\
       unpack_HHHB (slice packet 0 _hsize) =
         Some (Mbap (m_transaction_id m) (m_protocol_id m)
                    (py_len (fcb :: m_encode m) + 1) (m_unit_id m)) /\
       py_len (fcb :: m_encode m) + 1 = py_len (m_encode m) + 2) /\
  buildPacket (Message 1 0 17 1 [x00; x00; x00; x01]) =
    Some [x00; x01; x00; x00; x00; x06; x11; x01; x00; x00; x00; x01].
Proof.
  split; [|reflexivity].
  intros m Hwf.
  destruct (buildPacket_wf Hwf) as (hdr & fcb & Hb & Hh & Hf).
  pose proof (unpack_HHHB_length _ Hh) as L.
  assert (Hp : py_len (fcb :: m_encode m) + 1 = py_len (m_encode m) + 2)
    by (unfold py_len; cbn [length]; lia).
  exists (hdr ++ fcb :: m_encode m), fcb.
  repeat split; auto.
  - rewrite slice_from_nonneg by (unfold _hsize; lia).
    apply skipn_exact. rewrite L. reflexivity.
  - rewrite slice_nonneg by (unfold _hsize; lia).
    cbn [Z.to_nat]. rewrite Nat.sub_0_r. cbn [skipn].
    rewrite firstn_exact by (rewrite L; reflexivity).
    rewrite Hp. exact Hh.
Qed.

Lemma buildPacket_header_witness :
  wf_message (Message 7 0 17 3 [x00; x6b; x00; x03]) /\
  exists packet fcb,
    buildPacket (Message 7 0 17 3 [x00; x6b; x00; x03]) = Some packet /\
    byte_to_Z fcb = 3 /\
    slice_from packet _hsize = fcb :: [x00; x6b; x00; x03] /\
    unpack_HHHB (slice packet 0 _hsize) = Some (Mbap 7 0 6 17).
Proof.
  assert (W : wf_message (Message 7 0 17 3 [x00; x6b; x00; x03]))
    by (unfold wf_message; cbn; lia).
  split; [exact W|].
  destruct (proj1 buildPacket_header _ W)
    as (packet & fcb & Hb & Hf & Hs & Hu & _).
  exists packet, fcb. cbn in Hf, Hs, Hu |- *. repeat split; assumption.
Defined.

(* ------------------------------------------------------------------ *)
(** ** Frames through [processIncomingPacket] *)

Section Incoming.

Variable R : Type.
Variable decode : bytes -> option R.
Variable function_code : R -> Z.
Variable _validate_unit_id : framer -> list Z -> bool -> bool.

Local Abbreviation loop :=
  (process_loop decode function_code _validate_unit_id).
Local Abbreviation pip :=
  (processIncomingPacket decode function_code _validate_unit_id).

(** A complete frame at the head of the buffer that passes the unit check
    and decodes is handed to the callback with its header, and the loop
    goes on with the bytes after it. *)
Lemma processIncomingPacket_head (st : framer) (hdr body rest : bytes)
    (h : mbap) (unit : unit_arg) (single : bool) (r : R) :
  _buffer st = [] ->
  unpack_HHHB hdr = Some h ->
  len h = py_len body + 1 ->
  body <> [] ->
  _validate_unit_id (Framer (hdr ++ body ++ rest) h) (unit_list unit) single
    = true ->
  decode body = Some r ->
  pip st (hdr ++ body ++ rest) unit single =
  loop (S (length rest)) (Framer rest zero_header) (unit_list unit) single
       [Delivered r (tid h) (pid h) (uid h)].
Proof.
  intros Hst Hh Hl Hb Hv Hd.
  unfold processIncomingPacket, addToFrame. rewrite Hst. cbn [app _buffer].
  pose proof (@head_checkFrame R hdr body rest h Hh Hl Hb (_header st)) as Hc.
  pose proof (@head_getFrame hdr body rest h Hh Hl) as Hg.
  pose proof (@head_advanceFrame hdr body rest h Hh Hl) as Ha.
  erewrite process_loop_deliver; try exact Hc; try exact Hv.
  - rewrite Ha. reflexivity.
  - cbn [_buffer]. lia.
  - apply isFrameReady_true. cbn [_buffer]. rewrite !py_len_app.
    pose proof (unpack_HHHB_length _ Hh) as L.
    pose proof (py_len_nonneg rest).
    assert (1 <= py_len body)
      by (destruct body; [congruence | unfold py_len; cbn [length]; lia]).
    unfold py_len at 1. rewrite L. lia.
  - rewrite Hg. exact Hd.
Qed.

(** In particular a buffer that holds exactly one such frame is consumed
    whole. *)
Lemma processIncomingPacket_one (st : framer) (hdr body : bytes)
    (h : mbap) (unit : unit_arg) (single : bool) (r : R) :
  _buffer st = [] ->
  unpack_HHHB hdr = Some h ->
  len h = py_len body + 1 ->
  body <> [] ->
  _validate_unit_id (Framer (hdr ++ body) h) (unit_list unit) single = true ->
  decode body = Some r ->
  pip st (hdr ++ body) unit single =
  Some (Framer [] zero_header, [Delivered r (tid h) (pid h) (uid h)],
        Returned).
Proof.
  intros Hst Hh Hl Hb Hv Hd.
  rewrite <- (app_nil_r body) at 1.
  rewrite (@processIncomingPacket_head st hdr body [] h unit single r);
    auto.
  rewrite app_nil_r. exact Hv.
Qed.

End Incoming.

(** C2: for every well-formed message, the bytes [buildPacket] produces
    decode to the same PDU bytes (function code, then payload) through
    [checkFrame] and [getFrame], and to the same tid, pid and uid through
    [populateResult]; fed to a new framer they deliver exactly that frame. *)
Theorem buildPacket_roundtrip (R : Type) (m : message) :
  wf_message m ->
  exists packet fcb st1,
    buildPacket m = Some packet /\
    byte_to_Z fcb = m_function_code m /\
    checkFrame R (addToFrame init packet) = (st1, inr true) /\
    getFrame st1 = fcb :: m_encode m /\
    (forall r : R,
       populateResult st1 r =
       Delivered r (m_transaction_id m) (m_protocol_id m) (m_unit_id m)) /\
    (forall (decode : bytes -> option R) (function_code : R -> Z)
            validate unit single r,
       validate st1 (unit_list unit) single = true ->
       decode (fcb :: m_encode m) = Some r ->
       processIncomingPacket decode function_code validate init packet unit
                             single =
       Some (init,
             [Delivered r (m_transaction_id m) (m_protocol_id m)
                        (m_unit_id m)],
             Returned)).
Proof.
  intros Hwf.
  destruct (buildPacket_wf Hwf) as (hdr & fcb & Hb & Hh & Hf).
  set (h := Mbap (m_transaction_id m) (m_protocol_id m)
                 (py_len (m_encode m) + 2) (m_unit_id m)) in *.
  assert (Hl : len h = py_len (fcb :: m_encode m) + 1)
    by (unfold h, py_len; cbn [len length]; lia).
  assert (Hne : fcb :: m_encode m <> []) by discriminate.
  exists (hdr ++ fcb :: m_encode m), fcb,
         (Framer (hdr ++ fcb :: m_encode m) h).
  pose proof (@head_checkFrame R hdr _ [] h Hh Hl Hne zero_header) as Hc.
  pose proof (@head_getFrame hdr _ [] h Hh Hl) as Hg.
  rewrite app_nil_r in Hc, Hg.
  repeat split; auto.
  intros decode function_code validate unit single r Hv Hd.
  apply (@processIncomingPacket_one R decode function_code validate init hdr
           (fcb :: m_encode m) h unit single r); auto.
Qed.

Lemma buildPacket_roundtrip_witness :
  wf_message (Message 1 0 17 1 [x00; x00; x00; x01]) /\
  exists packet fcb st1,
    buildPacket (Message 1 0 17 1 [x00; x00; x00; x01]) = Some packet /\
    byte_to_Z fcb = 1 /\
    checkFrame bytes (addToFrame init packet) = (st1, inr true) /\
    getFrame st1 = fcb :: [x00; x00; x00; x01] /\
    (forall r : bytes, populateResult st1 r = Delivered r 1 0 17).
Proof.
  assert (W : wf_message (Message 1 0 17 1 [x00; x00; x00; x01]))
    by (unfold wf_message; cbn; lia).
  split; [exact W|].
  destruct (@buildPacket_roundtrip bytes _ W)
    as (packet & fcb & st1 & Hb & Hf & Hc & Hg & Hp & _).
  exists packet, fcb, st1. repeat split; assumption.
Defined.

(* ------------------------------------------------------------------ *)
(** ** What [checkFrame] answers *)

Section Check.

Variable R : Type.
Variables (st : framer) (h : mbap).
Hypothesis Hready : isFrameReady st = true.
Hypothesis Hunpack : unpack_HHHB (slice (_buffer st) 0 _hsize) = Some h.


Lemma checkFrame_complete :
  2 <= len h <= py_len (_buffer st) - 6 ->
  checkFrame R st = (Framer (_buffer st) h, inr true).
Proof.
  intros Hl. unfold checkFrame. rewrite Hready, Hunpack. cbv zeta.
  replace (len h <? 2) with false by (symmetry; apply Z.ltb_ge; lia).
  cbn [_buffer]. unfold _hsize.
  replace (len h <=? py_len (_buffer st) - 7 + 1) with true
    by (symmetry; apply Z.leb_le; lia).
  reflexivity.
Qed.

Lemma checkFrame_incomplete :
  2 <= len h -> py_len (_buffer st) - 6 < len h ->
  checkFrame R st = (Framer (_buffer st) h, inr false).
Proof.
  intros Hl Hi. unfold checkFrame. rewrite Hready, Hunpack. cbv zeta.
  replace (len h <? 2) with false by (symmetry; apply Z.ltb_ge; lia).
  cbn [_buffer]. unfold _hsize.
  replace (len h <=? py_len (_buffer st) - 7 + 1) with false
    by (symmetry; apply Z.leb_gt; lia).
  reflexivity.
Qed.

End Check.

Section Dropping.

Variable R : Type.
Variable decode : bytes -> option R.
Variable function_code : R -> Z.
Variable _validate_unit_id : framer -> list Z -> bool -> bool.

Local Abbreviation loop :=
  (process_loop decode function_code _validate_unit_id).
Local Abbreviation pip :=
  (processIncomingPacket decode function_code _validate_unit_id).

(** What the callback has received is never taken back. *)
Lemma process_loop_cb_prefix (fuel : nat) :
  forall st units single cb st1 ds o,
    loop fuel st units single cb = Some (st1, ds, o) ->
    exists ds1, ds = cb ++ ds1.
Proof.
  induction fuel as [|fuel IH]; intros st units single cb st1 ds o H;
    [discriminate|].
  cbn [process_loop] in H.
  destruct (isFrameReady st).
  - destruct (checkFrame R st) as [sta [e|[|]]].
    + inversion H; subst. exists []. symmetry. apply app_nil_r.
    + destruct (_validate_unit_id sta units single); [|eauto].
      destruct (_process decode function_code sta false) as [stb [e|r]].
      * inversion H; subst. exists []. symmetry. apply app_nil_r.
      * apply IH in H. destruct H as (ds1 & ->).
        exists (r :: ds1). rewrite <- app_assoc. reflexivity.
    + eauto.
  - destruct (negb (py_len (_buffer st) =? 0));
      [|inversion H; subst; exists []; symmetry; apply app_nil_r].
    destruct (len (_header st) <? 2);
      [|inversion H; subst; exists []; symmetry; apply app_nil_r].
    destruct (_process decode function_code st true) as [stb [e|r]];
      inversion H; subst.
    + exists []. symmetry. apply app_nil_r.
    + exists [r]. reflexivity.
Qed.

(** C9: when a decode attempt on a ready buffer fails the frame check,
    as it does when the header is complete and the body has not fully
    arrived, or fails the unit-id check, [processIncomingPacket] calls
    [resetFrame]: the whole buffer is discarded and the header zeroed, so
    the bytes of any later frame already received are lost with the
    offending frame, and the call returns. *)
Theorem failed_attempt_resets_frame (st : framer) (units : list Z)
    (single : bool) :
  isFrameReady st = true ->
  (exists h, unpack_HHHB (slice (_buffer st) 0 _hsize) = Some h /\
             2 <= len h /\ py_len (_buffer st) - 6 < len h) \/
  snd (checkFrame R st) = inr false \/
  (snd (checkFrame R st) = inr true /\
   _validate_unit_id (fst (checkFrame R st)) units single = false) ->
  resetFrame st = Framer [] zero_header /\
  (forall fuel cb,
     (length (_buffer st) < fuel)%nat ->
     loop fuel st units single cb = Some (resetFrame st, cb, Returned)) /\
  (forall st0 data unit,
     st = addToFrame st0 data -> units = unit_list unit ->
     pip st0 data unit single = Some (resetFrame st, [], Returned)).
Proof.
  intros Hr Hfail.
  assert (Hloop : forall fuel cb,
             (length (_buffer st) < fuel)%nat ->
             loop fuel st units single cb =
             Some (resetFrame st, cb, Returned)).
  { intros fuel cb Hf.
    destruct Hfail as [(h & Hh & H2 & Hi)|[Hc|[Hc Hv]]].
    - eapply process_loop_check_failed; eauto.
      apply checkFrame_incomplete; eauto.
    - destruct (checkFrame R st) as [st1 res] eqn:E. cbn [snd] in Hc.
      subst res. eapply process_loop_check_failed; eauto.
    - destruct (checkFrame R st) as [st1 res] eqn:E. cbn [snd fst] in Hc, Hv.
      subst res. eapply process_loop_unit_rejected; eauto. }
  split; [reflexivity|]. split; [exact Hloop|].
  intros st0 data unit -> ->. unfold processIncomingPacket.
  apply Hloop. lia.
Qed.

End Dropping.

Lemma failed_attempt_resets_frame_witness :
  isFrameReady (addToFrame init (other_unit_frame ++ read_coils_response))
    = true /\
  processIncomingPacket pdu_decode pdu_function_code spec_validate_unit_id
    init (other_unit_frame ++ read_coils_response) (OneUnit 17) false =
  Some (Framer [] zero_header, [], Returned).
Proof.
  split; [reflexivity|].
  refine (proj2 (proj2
    (@failed_attempt_resets_frame bytes pdu_decode pdu_function_code
       spec_validate_unit_id
       (addToFrame init (other_unit_frame ++ read_coils_response))
       [17] false _ _)) init _ (OneUnit 17) _ _); try reflexivity.
  right. right. split; reflexivity.
Defined.

(* ------------------------------------------------------------------ *)
(** ** Malformed lengths, protocol ids and unit ids *)




(** C6, as the code has it: the framer never looks at the protocol id.
    A complete frame at the head of the buffer passes [checkFrame]
    whatever its pid is, and when the unit check accepts it and the decoder
    decodes its body it is the next frame handed to the callback, with the
    pid of its header as [protocol_id]. *)
Theorem pid_is_not_checked (R : Type) (decode : bytes -> option R)
    (function_code : R -> Z)
    (validate : framer -> list Z -> bool -> bool)
    (st : framer) (hdr body rest : bytes) (h : mbap) (unit : unit_arg)
    (single : bool) (r : R) :
  _buffer st = [] ->
  unpack_HHHB hdr = Some h ->
  len h = py_len body + 1 ->
  body <> [] ->
  validate (Framer (hdr ++ body ++ rest) h) (unit_list unit) single = true ->
  decode body = Some r ->
  checkFrame R (addToFrame st (hdr ++ body ++ rest)) =
    (Framer (hdr ++ body ++ rest) h, inr true) /\
  exists st1 ds o,
    processIncomingPacket decode function_code validate st
      (hdr ++ body ++ rest) unit single =
    Some (st1, Delivered r (tid h) (pid h) (uid h) :: ds, o).
Proof.
  intros Hst Hh Hl Hb Hv Hd. split.
  - unfold addToFrame. rewrite Hst. cbn [app].
    apply (@head_checkFrame R hdr body rest h Hh Hl Hb).
  - rewrite (@processIncomingPacket_head R decode function_code validate st
               hdr body rest h unit single r) by assumption.
    destruct (@process_loop_terminates R decode function_code validate
                (S (length rest)) (Framer rest zero_header) (unit_list unit)
                single [Delivered r (tid h) (pid h) (uid h)])
      as ([[st1 ds] o] & Hloop); [cbn [_buffer]; lia|].
    destruct (process_loop_cb_prefix _ _ _ _ _ _ _ _ Hloop) as (ds1 & ->).
    exists st1, ds1, o. exact Hloop.
Qed.

Lemma pid_is_not_checked_witness :
  checkFrame bytes (addToFrame init nonzero_pid_frame) =
    (Framer nonzero_pid_frame (Mbap 1 1 4 17), inr true) /\
  exists st1 ds o,
    processIncomingPacket pdu_decode pdu_function_code spec_validate_unit_id
      init nonzero_pid_frame (OneUnit 17) false =
    Some (st1, Delivered [x01; x01; x01] 1 1 17 :: ds, o).
Proof.
  apply (@pid_is_not_checked bytes pdu_decode pdu_function_code
           spec_validate_unit_id init
           [x00; x01; x00; x01; x00; x04; x11] [x01; x01; x01] []
           (Mbap 1 1 4 17) (OneUnit 17) false [x01; x01; x01]);
    try reflexivity.
  discriminate.
Defined.

(** A complete frame with protocol id 1 is reported valid, decoded and
    delivered. *)
Lemma nonzero_pid_counterexample :
  unpack_HHHB (slice nonzero_pid_frame 0 _hsize) = Some (Mbap 1 1 4 17) /\
  checkFrame bytes (addToFrame init nonzero_pid_frame) =
    (Framer nonzero_pid_frame (Mbap 1 1 4 17), inr true) /\
  processIncomingPacket pdu_decode pdu_function_code spec_validate_unit_id
    init nonzero_pid_frame (OneUnit 17) false =
  Some (Framer [] zero_header, [Delivered [x01; x01; x01] 1 1 17], Returned).
Proof.
  repeat split; reflexivity.
Qed.



(* ------------------------------------------------------------------ *)
(** ** The buffer between two calls *)

Section Invariant.

Variable R : Type.
Variable decode : bytes -> option R.
Variable function_code : R -> Z.
Variable _validate_unit_id : framer -> list Z -> bool -> bool.

Local Abbreviation loop :=
  (process_loop decode function_code _validate_unit_id).
Local Abbreviation pip :=
  (processIncomingPacket decode function_code _validate_unit_id).

Lemma header_inv_reset (st : framer) : header_inv (resetFrame st).
Proof. left. reflexivity. Qed.

Lemma header_inv_advance (st : framer) : header_inv (advanceFrame st).
Proof. left. reflexivity. Qed.

Lemma header_inv_add (st : framer) (data : bytes) :
  header_inv st -> header_inv (addToFrame st data).
Proof.
  intros [H|H]; [left; exact H|right].
  unfold addToFrame. cbn [_header _buffer]. rewrite py_len_app.
  pose proof (py_len_nonneg data). lia.
Qed.

(** The loop keeps the header invariant, and when it returns at most one
    byte is left in the buffer. *)
Lemma process_loop_inv (fuel : nat) :
  forall st units single cb st1 ds o,
    header_inv st ->
    loop fuel st units single cb = Some (st1, ds, o) ->
    header_inv st1 /\ (o = Returned -> py_len (_buffer st1) <= 1).
Proof.
  induction fuel as [|fuel IH]; intros st units single cb st1 ds o Hinv H;
    [discriminate|].
  cbn [process_loop] in H.
  destruct (isFrameReady st) eqn:Hr.
  - pose proof (checkFrameP R st) as V.
    destruct (checkFrame R st) as [sta res].
    inversion V as [Hn|h _ Hh Hl Hsta|h _ Hh Hl Hsta|h _ Hh Hl Hi Hsta];
      subst sta res.
    + congruence.
    + eapply IH; [|exact H]. apply header_inv_reset.
    + destruct (_validate_unit_id _ units single);
        [|eapply IH; [|exact H]; apply header_inv_reset].
      destruct (_process_cases decode function_code
                  (Framer (_buffer st) h) false)
        as [(e & He)|(r & He & _)]; rewrite He in H.
      * inversion H; subst. split; [|discriminate].
        right. cbn [_header _buffer]. exact Hl.
      * eapply IH; [|exact H]. apply header_inv_advance.
    + eapply IH; [|exact H]. apply header_inv_reset.
  - apply isFrameReady_false in Hr.
    destruct (py_len (_buffer st) =? 0) eqn:E0; cbn [negb] in H.
    + apply Z.eqb_eq in E0. inversion H; subst. split; [assumption|lia].
    + destruct (len (_header st) <? 2) eqn:E2.
      * apply Z.ltb_lt in E2.
        destruct (_process_cases decode function_code st true)
          as [(e & He)|(r & He & _)]; rewrite He in H;
          inversion H; subst.
        -- split; [assumption|discriminate].
        -- split; [apply header_inv_advance|]. intros _.
           assert (Hz : len (_header st) = 0).
           { destruct Hinv as [Hz|Hz]; [rewrite Hz; reflexivity|lia]. }
           rewrite advanceFrame_buffer by lia.
           unfold py_len in *. rewrite length_skipn, Hz. cbn. lia.
      * apply Z.ltb_ge in E2. inversion H; subst.
        split; [assumption|]. intros _.
        destruct Hinv as [Hz|Hz]; [rewrite Hz in E2; cbn in E2; lia|lia].
Qed.

Lemma reachable_header_inv (st : framer) :
  reachable decode function_code _validate_unit_id st -> header_inv st.
Proof.
  induction 1 as [|st data unit single st1 ds o _ IH Hcall].
  - left. reflexivity.
  - unfold processIncomingPacket in Hcall.
    apply process_loop_inv in Hcall; [tauto|].
    apply header_inv_add. exact IH.
Qed.

(** C4: from the initial state and through every sequence of feeds, each
    call of [processIncomingPacket] ends, and when it returns normally the
    buffer is empty, or a prefix strictly shorter than the 7-byte header, or
    a complete header with an incomplete body. *)
Theorem buffer_between_calls (st : framer) (data : bytes) (unit : unit_arg)
    (single : bool) :
  reachable decode function_code _validate_unit_id st ->
  (exists res, pip st data unit single = Some res) /\
  (forall st1 ds,
     pip st data unit single = Some (st1, ds, Returned) ->
     buffer_empty st1 \/ buffer_short_prefix st1 \/
     buffer_incomplete_body st1).
Proof.
  intros Hreach. split.
  - unfold processIncomingPacket. apply process_loop_terminates. lia.
  - intros st1 ds Hcall. unfold processIncomingPacket in Hcall.
    apply process_loop_inv in Hcall;
      [|apply header_inv_add, reachable_header_inv, Hreach].
    destruct Hcall as (_ & Hlen). specialize (Hlen eq_refl).
    unfold buffer_empty, buffer_short_prefix.
    destruct (_buffer st1) as [|b l] eqn:E; [left; reflexivity|].
    right. left. unfold py_len, _hsize in *. cbn [length] in *. lia.
Qed.

End Invariant.

Lemma buffer_between_calls_witness :
  reachable pdu_decode pdu_function_code spec_validate_unit_id init /\
  (buffer_empty (Framer [] zero_header) \/
   buffer_short_prefix (Framer [] zero_header) \/
   buffer_incomplete_body (Framer [] zero_header)).
Proof.
  assert (Hr : reachable pdu_decode pdu_function_code spec_validate_unit_id
                 init) by constructor.
  split; [exact Hr|].
  exact (proj2 (@buffer_between_calls bytes pdu_decode pdu_function_code
                  spec_validate_unit_id init read_coils_response
                  (OneUnit 17) false Hr)
               (Framer [] zero_header)
               [Delivered [x01; x01; x01] 1 0 17] eq_refl).
Defined.

(* ------------------------------------------------------------------ *)
(** ** Fragments and undecodable frames *)

Lemma slice_app_within (A : Type) (l d : list A) (i j : Z) :
  0 <= i -> 0 <= j <= py_len l -> slice (l ++ d) i j = slice l i j.
Proof.
  intros Hi Hj. unfold py_len in Hj.
  rewrite !slice_nonneg by lia.
  destruct (Z.le_gt_cases i (Z.of_nat (length l))) as [Hil|Hil].
  - rewrite skipn_app.
    replace (Z.to_nat i - length l)%nat with 0%nat by lia.
    cbn [skipn]. rewrite firstn_app.
    replace (Z.to_nat j - Z.to_nat i - length (skipn (Z.to_nat i) l))%nat
      with 0%nat by (rewrite length_skipn; lia).
    cbn [firstn]. apply app_nil_r.
  - replace (Z.to_nat j - Z.to_nat i)%nat with 0%nat by lia. reflexivity.
Qed.

(** C1 at the fragmented response of the spec: fed whole, the response is
    delivered and the buffer is left empty; fed as [fragment_1] then
    [fragment_2], the first call discards the eight bytes it received and
    the second never delivers the response. *)
Theorem fragmented_frame_is_lost (R : Type) (decode : bytes -> option R)
    (function_code : R -> Z) (validate : framer -> list Z -> bool -> bool)
    (unit : unit_arg) (single : bool) (r : R) :
  decode [x01; x01; x01] = Some r ->
  validate (Framer read_coils_response (Mbap 1 0 4 17)) (unit_list unit)
           single = true ->
  valid_stream (fragment_1 ++ fragment_2) /\
  feed decode function_code validate init [fragment_1 ++ fragment_2] unit
       single [] =
    Some (Framer [] zero_header, [Delivered r 1 0 17], Returned) /\
  processIncomingPacket decode function_code validate init fragment_1 unit
                        single =
    Some (Framer [] zero_header, [], Returned) /\
  exists st ds o,
    feed decode function_code validate init [fragment_1; fragment_2] unit
         single [] = Some (st, ds, o) /\
    (forall d, In d ds -> transaction_id d = 0) /\
    ds <> [Delivered r 1 0 17].
Proof.
  intros Hd Hv.
  assert (Hwhole :
    processIncomingPacket decode function_code validate init
      (fragment_1 ++ fragment_2) unit single =
    Some (Framer [] zero_header, [Delivered r 1 0 17], Returned)).
  { apply (@processIncomingPacket_one R decode function_code validate init
             [x00; x01; x00; x00; x00; x04; x11] [x01; x01; x01]
             (Mbap 1 0 4 17) unit single r);
      try reflexivity; try assumption. discriminate. }
  assert (Hfirst :
    processIncomingPacket decode function_code validate init fragment_1 unit
                          single =
    Some (Framer [] zero_header, [], Returned)) by reflexivity.
  split; [|split; [|split]].
  - change (fragment_1 ++ fragment_2) with (read_coils_response ++ []).
    apply (@valid_cons (Message 1 0 17 1 [x01; x01])); [reflexivity|].
    constructor.
  - cbn [feed]. rewrite Hwhole. reflexivity.
  - exact Hfirst.
  - cbn [feed]. rewrite Hfirst. cbn [app].
    unfold processIncomingPacket, addToFrame, fragment_2.
    cbn [init _buffer _header app length process_loop].
    change (isFrameReady (Framer [x01; x01] zero_header)) with false.
    cbv iota.
    change (negb (py_len (_buffer (Framer [x01; x01] zero_header)) =? 0))
      with true.
    change (len (_header (Framer [x01; x01] zero_header)) <? 2) with true.
    cbv iota. unfold _process. cbn [getRawFrame _buffer andb].
    destruct (decode [x01; x01]) as [r2|].
    + destruct (function_code r2 <? 128).
      * do 3 eexists. split; [reflexivity|]. split; [intros d []|discriminate].
      * do 3 eexists. split; [reflexivity|]. split.
        -- intros d [<-|[]]. reflexivity.
        -- intros H. inversion H.
    + do 3 eexists. split; [reflexivity|]. split; [intros d []|discriminate].
Qed.

Lemma fragmented_frame_is_lost_witness :
  pdu_decode [x01; x01; x01] = Some [x01; x01; x01] /\
  feed pdu_decode pdu_function_code spec_validate_unit_id init
       [fragment_1 ++ fragment_2] (OneUnit 17) false [] =
    Some (Framer [] zero_header, [Delivered [x01; x01; x01] 1 0 17],
          Returned) /\
  processIncomingPacket pdu_decode pdu_function_code spec_validate_unit_id
                        init fragment_1 (OneUnit 17) false =
    Some (Framer [] zero_header, [], Returned).
Proof.
  split; [reflexivity|].
  destruct (@fragmented_frame_is_lost bytes pdu_decode pdu_function_code
              spec_validate_unit_id (OneUnit 17) false [x01; x01; x01]
              eq_refl eq_refl) as (_ & Hw & Hf & _).
  split; assumption.
Defined.

(** With the example decoder the second fragment raises. *)
Example fragmented_response_raises :
  feed pdu_decode pdu_function_code spec_validate_unit_id init
       [fragment_1; fragment_2] (OneUnit 17) false [] =
  Some (Framer fragment_2 zero_header, [],
        Raised (InvalidMessageReceivedException [x01; x01])).
Proof. reflexivity. Qed.

(** So feeding a valid stream in chunks and feeding it whole differ. *)
Example chunked_feed_differs :
  valid_stream read_coils_response /\
  concat [fragment_1; fragment_2] = read_coils_response /\
  feed pdu_decode pdu_function_code spec_validate_unit_id init
       [fragment_1; fragment_2] (OneUnit 17) false [] <>
  feed pdu_decode pdu_function_code spec_validate_unit_id init
       [read_coils_response] (OneUnit 17) false [].
Proof.
  split; [|split; [reflexivity | vm_compute; discriminate]].
  rewrite <- (app_nil_r read_coils_response).
  apply (@valid_cons (Message 1 0 17 1 [x01; x01])); [reflexivity|].
  constructor.
Qed.

(** C8 on the code: a complete, accepted frame whose body the decoder
    rejects makes [processIncomingPacket] raise [ModbusIOException] and
    stays at the head of the buffer with its header; every later call that
    accepts its unit raises again, and delivers nothing of what was
    received after it. *)
Theorem undecodable_frame_stays (R : Type) (decode : bytes -> option R)
    (function_code : R -> Z) (validate : framer -> list Z -> bool -> bool)
    (st : framer) (data : bytes) (unit : unit_arg) (single : bool)
    (h : mbap) :
  isFrameReady (addToFrame st data) = true ->
  unpack_HHHB (slice (_buffer st ++ data) 0 _hsize) = Some h ->
  2 <= len h <= py_len (_buffer st ++ data) - 6 ->
  validate (Framer (_buffer st ++ data) h) (unit_list unit) single = true ->
  decode (getFrame (Framer (_buffer st ++ data) h)) = None ->
  processIncomingPacket decode function_code validate st data unit single =
    Some (Framer (_buffer st ++ data) h, [],
          Raised (ModbusIOException "Unable to decode request")) /\
  (forall data2 unit2 single2,
     validate (Framer ((_buffer st ++ data) ++ data2) h) (unit_list unit2)
              single2 = true ->
     processIncomingPacket decode function_code validate
       (Framer (_buffer st ++ data) h) data2 unit2 single2 =
     Some (Framer ((_buffer st ++ data) ++ data2) h, [],
           Raised (ModbusIOException "Unable to decode request"))).
Proof.
  intros Hr Hh Hc Hv Hd.
  set (buf := _buffer st ++ data) in *.
  apply isFrameReady_true in Hr as Hlen. cbn [addToFrame _buffer] in Hlen.
  fold buf in Hlen.
  split.
  - unfold processIncomingPacket.
    apply (@process_loop_decode_failed R decode function_code validate
             _ (addToFrame st data) (Framer buf h) (unit_list unit) single
             []); auto.
    apply (@checkFrame_complete R (addToFrame st data) h Hr Hh Hc).
  - intros data2 unit2 single2 Hv2.
    pose proof (py_len_nonneg data2) as Hn2.
    assert (Hr2 : isFrameReady (Framer (buf ++ data2) h) = true)
      by (apply isFrameReady_true; cbn [_buffer]; rewrite py_len_app; lia).
    assert (Hh2 : unpack_HHHB (slice (buf ++ data2) 0 _hsize) = Some h)
      by (rewrite slice_app_within by (unfold _hsize; lia); exact Hh).
    assert (Hc2 : 2 <= len h <= py_len (buf ++ data2) - 6)
      by (rewrite py_len_app; lia).
    assert (Hd2 : decode (getFrame (Framer (buf ++ data2) h)) = None).
    { unfold getFrame in *. cbn [_buffer _header] in *.
      rewrite slice_app_within by (unfold _hsize; lia). exact Hd. }
    unfold processIncomingPacket.
    apply (@process_loop_decode_failed R decode function_code validate
             _ (addToFrame (Framer buf h) data2) (Framer (buf ++ data2) h)
             (unit_list unit2) single2 []); auto.
    apply (@checkFrame_complete R (addToFrame (Framer buf h) data2) h
             Hr2 Hh2 Hc2).
Qed.

Lemma undecodable_frame_stays_witness :
  pdu_decode (getFrame (Framer undecodable_frame (Mbap 1 0 2 17))) = None /\
  processIncomingPacket pdu_decode pdu_function_code spec_validate_unit_id
    init undecodable_frame (OneUnit 17) false =
    Some (Framer undecodable_frame (Mbap 1 0 2 17), [],
          Raised (ModbusIOException "Unable to decode request")) /\
  processIncomingPacket pdu_decode pdu_function_code spec_validate_unit_id
    (Framer undecodable_frame (Mbap 1 0 2 17)) read_coils_response
    (OneUnit 17) false =
    Some (Framer (undecodable_frame ++ read_coils_response) (Mbap 1 0 2 17),
          [], Raised (ModbusIOException "Unable to decode request")).
Proof.
  split; [reflexivity|].
  assert (Hc : 2 <= len (Mbap 1 0 2 17)
               <= py_len (_buffer init ++ undecodable_frame) - 6)
    by (cbn; lia).
  destruct (@undecodable_frame_stays bytes pdu_decode pdu_function_code
              spec_validate_unit_id init undecodable_frame (OneUnit 17)
              false (Mbap 1 0 2 17) eq_refl eq_refl Hc eq_refl eq_refl)
    as (H1 & H2).
  split; [exact H1|].
  exact (H2 read_coils_response (OneUnit 17) false eq_refl).
Defined.

(* ------------------------------------------------------------------ *)
(** ** The callbacks of a transport *)

(** C10: [BaseTransport.__init__] ignores its [callbacks] argument.
    Whatever is passed, [_cbs] is a new [BaseTransportProtocol], whose
    methods only log: [data_received], [connection_made] and
    [connection_lost] add one line to the debug log and call nothing
    supplied by the user. *)
Theorem callbacks_are_ignored (Loop Conn Exc U : Type)
    (running_loop : option Loop) (is_server : bool)
    (cbs : option (Transport.callbacks Conn Exc U))
    (self : Transport.BaseTransport Loop Conn Exc U) :
  Transport.__init__ running_loop is_server cbs = Some self ->
  Transport._cbs self = Transport.BaseTransportProtocol Conn Exc U /\
  (forall cbs2, Transport.__init__ running_loop is_server cbs2 = Some self) /\
  (forall data w,
     Transport.data_received self data w =
     w ++ [Transport.LogDebug U "Data received" (Transport.ExData Conn Exc data)])
  /\
  (forall t w,
     snd (Transport.connection_made self t w) =
     w ++ [Transport.LogDebug U "Connection made"
             (Transport.ExTransport Exc t)]) /\
  (forall e w,
     Transport.connection_lost self e w =
     w ++ [Transport.LogDebug U "Connection lost" (Transport.ExExc Conn e)]).
Proof.
  unfold Transport.__init__. destruct running_loop as [l|]; [|discriminate].
  intros H. inversion H; subst. clear H.
  repeat split; reflexivity.
Qed.

Lemma callbacks_are_ignored_witness :
  Transport.__init__ (Some tt) false (Some Transport.user_callbacks) =
    Some (Transport.MkBaseTransport false
            (Transport.BaseTransportProtocol unit unit string) tt None None)
  /\
  Transport.data_received
    (Transport.MkBaseTransport false
       (Transport.BaseTransportProtocol unit unit string) tt None None)
    [x01] [] =
  [Transport.LogDebug string "Data received"
     (Transport.ExData unit unit [x01])].
Proof.
  split; [reflexivity|].
  destruct (@callbacks_are_ignored unit unit unit string (Some tt) false
              (Some Transport.user_callbacks) _ eq_refl)
    as (_ & _ & Hd & _).
  exact (Hd [x01] []).
Defined.

(* ------------------------------------------------------------------ *)
(** ** More on [checkFrame], [getFrame] and [advanceFrame] *)

(** X1: [checkFrame] answers [True] exactly when the buffer has more than
    seven bytes, the length field of its header is at least 2 and the
    buffer holds the [length - 1] bytes that follow the header. *)
Theorem checkFrame_true_iff (R : Type) (st : framer) :
  snd (checkFrame R st) = inr true <->
  exists h,
    7 < py_len (_buffer st) /\
    unpack_HHHB (slice (_buffer st) 0 _hsize) = Some h /\
    2 <= len h <= py_len (_buffer st) - 6.
Proof.
  split.
  - intros H. pose proof (checkFrameP R st) as V.
    destruct (checkFrame R st) as [st1 res]. cbn [snd] in H. subst res.
    inversion V as [| |h Hr Hh Hl|]; subst.
    exists h. split; [apply isFrameReady_true, Hr|]. split; assumption.
  - intros (h & Hlen & Hh & Hl).
    rewrite (@checkFrame_complete R st h); auto.
    apply isFrameReady_true. exact Hlen.
Qed.

(** X2: when [checkFrame] answers [True] the buffer is untouched and is
    made of three parts: the seven header bytes, the frame [getFrame]
    returns, of exactly [length - 1] bytes, and the buffer [advanceFrame]
    leaves. *)
Theorem complete_frame_partition (R : Type) (st st1 : framer) :
  checkFrame R st = (st1, inr true) ->
  _buffer st1 = _buffer st /\
  _buffer st =
    slice (_buffer st) 0 _hsize ++ getFrame st1 ++ _buffer (advanceFrame st1)
  /\
  py_len (getFrame st1) = len (_header st1) - 1 /\
  py_len (_buffer (advanceFrame st1)) =
    py_len (_buffer st) - 6 - len (_header st1).
Proof.
  intros Hc. pose proof (checkFrameP R st) as V. rewrite Hc in V.
  inversion V as [| |h Hr Hh Hl|]; subst. clear V Hc.
  set (b := _buffer st) in *. cbn [_buffer _header].
  unfold getFrame, _hsize. cbn [_buffer _header].
  rewrite advanceFrame_buffer by (cbn [_header]; lia). cbn [_buffer _header].
  rewrite !slice_nonneg by lia.
  cbn [Z.to_nat]. rewrite Nat.sub_0_r. cbn [skipn].
  unfold py_len in *.
  replace (Z.to_nat (6 + len h)) with
    ((Z.to_nat (7 + len h - 1) - Pos.to_nat 7) + Pos.to_nat 7)%nat by lia.
  rewrite <- skipn_skipn.
  split; [reflexivity|]. split; [|split].
  - rewrite firstn_skipn. symmetry. apply firstn_skipn.
  - rewrite length_firstn, length_skipn. lia.
  - rewrite !length_skipn. lia.
Qed.

Lemma complete_frame_partition_witness :
  checkFrame bytes (addToFrame init read_coils_response) =
    (Framer read_coils_response (Mbap 1 0 4 17), inr true) /\
  getFrame (Framer read_coils_response (Mbap 1 0 4 17)) = [x01; x01; x01] /\
  py_len (getFrame (Framer read_coils_response (Mbap 1 0 4 17))) = 3.
Proof.
  assert (Hc : checkFrame bytes (addToFrame init read_coils_response) =
               (Framer read_coils_response (Mbap 1 0 4 17), inr true))
    by reflexivity.
  split; [exact Hc|]. split; [reflexivity|].
  destruct (@complete_frame_partition bytes _ _ Hc) as (_ & _ & Hg & _).
  exact Hg.
Defined.

(** X3: [getFrame] never returns more than [length - 1] bytes, whatever
    the buffer holds, and returns no byte when the length of the header is
    at most 1, as it is before any frame has been checked. *)
Theorem getFrame_bounds (st : framer) :
  0 <= len (_header st) ->
  py_len (getFrame st) <= Z.max 0 (len (_header st) - 1) /\
  (len (_header st) <= 1 -> getFrame st = []).
Proof.
  intros H0. unfold getFrame, _hsize. rewrite slice_nonneg by lia.
  split.
  - unfold py_len. rewrite length_firstn. lia.
  - intros H1.
    replace (Z.to_nat (7 + len (_header st) - 1) - Z.to_nat 7)%nat
      with 0%nat by lia.
    reflexivity.
Qed.

Lemma getFrame_bounds_witness :
  0 <= len (_header (addToFrame init read_coils_response)) /\
  getFrame (addToFrame init read_coils_response) = [].
Proof.
  assert (H0 : 0 <= len (_header (addToFrame init read_coils_response)))
    by (cbn; lia).
  split; [exact H0|].
  apply (proj2 (getFrame_bounds _ H0)). cbn. lia.
Defined.

(* ------------------------------------------------------------------ *)
(** ** What [buildPacket] accepts, and [decode_data] *)

Lemma pack_B_some (z : Z) (b : bytes) : pack_B z = Some b -> 0 <= z <= 255.
Proof.
  unfold pack_B. destruct ((0 <=? z) && (z <=? 255)) eqn:E; [|discriminate].
  intros _. apply andb_true_iff in E. destruct E as [E1 E2].
  apply Z.leb_le in E1, E2. lia.
Qed.

Lemma pack_H_some (z : Z) (b : bytes) : pack_H z = Some b -> 0 <= z <= 65535.
Proof.
  unfold pack_H. destruct ((0 <=? z) && (z <=? 65535)) eqn:E; [|discriminate].
  intros _. apply andb_true_iff in E. destruct E as [E1 E2].
  apply Z.leb_le in E1, E2. lia.
Qed.

Lemma buildPacket_some_wf (m : message) (p : bytes) :
  buildPacket m = Some p -> wf_message m.
Proof.
  unfold buildPacket, pack_SOCKET_FRAME_HEADER, wf_message.
  destruct (pack_H (m_transaction_id m)) as [bt|] eqn:Et; [|discriminate].
  destruct (pack_H (m_protocol_id m)) as [bp|] eqn:Ep; [|discriminate].
  destruct (pack_H (py_len (m_encode m) + 2)) as [bl|] eqn:El;
    [|discriminate].
  destruct (pack_B (m_unit_id m)) as [bu|] eqn:Eu; [|discriminate].
  destruct (pack_B (m_function_code m)) as [bf|] eqn:Ef; [|discriminate].
  intros _.
  apply pack_H_some in Et, Ep, El. apply pack_B_some in Eu, Ef. lia.
Qed.

(** X4: [buildPacket] returns a packet exactly for the messages whose
    transaction and protocol ids fit 16 bits, whose unit id and function
    code fit 8 bits and whose payload has at most 65533 bytes, and raises
    otherwise; the packet is 8 bytes longer than the payload. *)
Theorem buildPacket_defined_iff (m : message) :
  ((exists p, buildPacket m = Some p) <-> wf_message m) /\
  (forall p, buildPacket m = Some p -> py_len p = py_len (m_encode m) + 8).
Proof.
  split; [split|].
  - intros (p & Hp). exact (buildPacket_some_wf _ Hp).
  - intros Hwf. destruct (buildPacket_wf Hwf) as (hdr & fcb & Hb & _).
    eauto.
  - intros p Hp. pose proof (buildPacket_some_wf _ Hp) as Hwf.
    destruct (buildPacket_wf Hwf) as (hdr & fcb & Hb & Hh & _).
    rewrite Hb in Hp. inversion Hp; subst.
    pose proof (unpack_HHHB_length _ Hh) as L.
    unfold py_len. rewrite length_app, L. cbn [length]. lia.
Qed.

(** The oversized payload of [struct.pack]: 65534 bytes need a length
    field of 65536. *)
Example buildPacket_oversized (t p u f : Z) (data : bytes) :
  65533 < py_len data -> buildPacket (Message t p u f data) = None.
Proof.
  intros H. destruct (buildPacket (Message t p u f data)) as [pk|] eqn:E;
    [|reflexivity].
  apply buildPacket_some_wf in E. unfold wf_message in E. cbn in E. lia.
Qed.

Lemma app_eq_length (A : Type) (a b c d : list A) :
  length a = length c -> a ++ b = c ++ d -> a = c /\ b = d.
Proof.
  intros L H. split.
  - apply (f_equal (firstn (length a))) in H.
    rewrite firstn_exact in H by reflexivity.
    rewrite L, firstn_exact in H by reflexivity. exact H.
  - apply (f_equal (skipn (length a))) in H.
    rewrite skipn_exact in H by reflexivity.
    rewrite L, skipn_exact in H by reflexivity. exact H.
Qed.

(** X5: two messages with the same packet are the same message: the
    packet determines tid, pid, uid, function code and payload. *)
Theorem buildPacket_injective (m1 m2 : message) (p : bytes) :
  buildPacket m1 = Some p -> buildPacket m2 = Some p -> m1 = m2.
Proof.
  intros H1 H2.
  destruct (buildPacket_wf (buildPacket_some_wf _ H1))
    as (hdr1 & f1 & Hb1 & Hh1 & Hf1).
  destruct (buildPacket_wf (buildPacket_some_wf _ H2))
    as (hdr2 & f2 & Hb2 & Hh2 & Hf2).
  rewrite Hb1 in H1. rewrite Hb2 in H2. rewrite <- H2 in H1.
  inversion H1 as [Heq]. clear H1 H2 Hb1 Hb2.
  apply app_eq_length in Heq;
    [|rewrite (unpack_HHHB_length _ Hh1), (unpack_HHHB_length _ Hh2);
      reflexivity].
  destruct Heq as [-> Heq]. inversion Heq; subst f2. clear Heq.
  rewrite Hh1 in Hh2. inversion Hh2 as [[Ht Hp Hl Hu]].
  destruct m1, m2. cbn in *. subst. reflexivity.
Qed.

Lemma buildPacket_injective_witness :
  buildPacket (Message 1 0 17 1 [x01; x01]) = Some read_coils_response /\
  Message 1 0 17 1 [x01; x01] = Message 1 0 17 1 (skipn 8 read_coils_response).
Proof.
  assert (H : buildPacket (Message 1 0 17 1 [x01; x01])
              = Some read_coils_response) by reflexivity.
  split; [exact H|].
  exact (@buildPacket_injective _ (Message 1 0 17 1
           (skipn 8 read_coils_response)) _ H eq_refl).
Defined.

(** The first eight bytes of a buffer, when it has them. *)
Lemma slice_header_fcode (b : bytes) :
  7 < py_len b ->
  exists t1 t0 p1 p0 l1 l0 u f rest,
    b = [t1; t0; p1; p0; l1; l0; u; f] ++ rest /\
    slice b 0 _hsize = [t1; t0; p1; p0; l1; l0; u] /\
    slice b 0 (_hsize + 1) = [t1; t0; p1; p0; l1; l0; u; f] /\
    slice_from b _hsize = f :: rest.
Proof.
  intros Hb. unfold py_len in Hb.
  destruct b as [|t1 [|t0 [|p1 [|p0 [|l1 [|l0 [|u [|f rest]]]]]]]];
    simpl in Hb; try lia.
  exists t1, t0, p1, p0, l1, l0, u, f, rest. split; [reflexivity|].
  rewrite !slice_nonneg by (unfold _hsize; lia).
  rewrite slice_from_nonneg by (unfold _hsize; lia).
  repeat split; reflexivity.
Qed.

(** X6: [decode_data] never raises, and it returns the empty dict exactly
    for data of at most seven bytes, where looking up any key finds
    nothing. *)
Theorem decode_data_empty_iff (data : bytes) :
  (exists d, decode_data data = Some d) /\
  (decode_data data = Some [] <-> py_len data <= 7) /\
  (py_len data <= 7 ->
   forall key d, decode_data data = Some d -> dict_get key d = None).
Proof.
  unfold decode_data. unfold _hsize at 1 3 5.
  destruct (7 <? py_len data) eqn:E.
  - apply Z.ltb_lt in E.
    destruct (slice_header_fcode data E)
      as (t1 & t0 & p1 & p0 & l1 & l0 & u & f & rest & _ & _ & Hs & _).
    rewrite Hs. cbn [unpack_SOCKET_FRAME_HEADER].
    split; [eauto|]. split.
    + split; [discriminate|lia].
    + lia.
  - apply Z.ltb_ge in E. split; [eauto|]. split; [tauto|].
    intros _ key d H. inversion H. reflexivity.
Qed.

(** X7: on a packet built by [buildPacket], [decode_data] returns the
    header fields and the function code of the message. *)
Theorem decode_data_buildPacket (m : message) (p : bytes) :
  buildPacket m = Some p ->
  decode_data p =
  Some [("tid"%string, m_transaction_id m); ("pid"%string, m_protocol_id m);
        ("length"%string, py_len (m_encode m) + 2);
        ("unit"%string, m_unit_id m); ("fcode"%string, m_function_code m)].
Proof.
  intros Hp.
  destruct (buildPacket_wf (buildPacket_some_wf _ Hp))
    as (hdr & fcb & Hb & Hh & Hf).
  rewrite Hb in Hp. inversion Hp; subst p. clear Hp.
  pose proof (unpack_HHHB_length _ Hh) as L.
  assert (Hlen : 7 < py_len (hdr ++ fcb :: m_encode m))
    by (unfold py_len; rewrite length_app, L; cbn [length]; lia).
  destruct (slice_header_fcode _ Hlen)
    as (t1 & t0 & p1 & p0 & l1 & l0 & u & f & rest & Hb8 & _ & Hs & _).
  change ([t1; t0; p1; p0; l1; l0; u; f] ++ rest)
    with ([t1; t0; p1; p0; l1; l0; u] ++ f :: rest) in Hb8.
  apply app_eq_length in Hb8; [|rewrite L; reflexivity].
  destruct Hb8 as [-> Hb8]. inversion Hb8; subst f rest. clear Hb8.
  cbn [unpack_HHHB] in Hh. inversion Hh as [[Ht Hp Hl Hu]].
  unfold decode_data. unfold _hsize at 1.
  replace (7 <? py_len ([t1; t0; p1; p0; l1; l0; u] ++ fcb :: m_encode m))
    with true by (symmetry; apply Z.ltb_lt; exact Hlen).
  rewrite Hs. cbn [unpack_SOCKET_FRAME_HEADER].
  rewrite Ht, Hp, Hl, Hu, Hf. reflexivity.
Qed.

Lemma decode_data_buildPacket_witness :
  buildPacket (Message 1 0 17 1 [x00; x00; x00; x01]) =
    Some [x00; x01; x00; x00; x00; x06; x11; x01; x00; x00; x00; x01] /\
  decode_data [x00; x01; x00; x00; x00; x06; x11; x01; x00; x00; x00; x01] =
  Some [("tid"%string, 1); ("pid"%string, 0); ("length"%string, 6);
        ("unit"%string, 17); ("fcode"%string, 1)].
Proof.
  assert (H : buildPacket (Message 1 0 17 1 [x00; x00; x00; x01]) =
    Some [x00; x01; x00; x00; x00; x06; x11; x01; x00; x00; x00; x01])
    by reflexivity.
  split; [exact H|].
  exact (decode_data_buildPacket _ H).
Defined.

(** X8: on a buffer of more than seven bytes [decode_data] reads the
    header [checkFrame] reads, and takes the byte after the header as
    function code; unlike [checkFrame] it asks nothing of the length
    field. *)
Theorem decode_data_reads_header (st : framer) (h : mbap) :
  isFrameReady st = true ->
  unpack_HHHB (slice (_buffer st) 0 _hsize) = Some h ->
  exists fcb rest,
    slice_from (_buffer st) _hsize = fcb :: rest /\
    decode_data (_buffer st) =
    Some [("tid"%string, tid h); ("pid"%string, pid h);
          ("length"%string, len h); ("unit"%string, uid h);
          ("fcode"%string, byte_to_Z fcb)].
Proof.
  intros Hr Hh. apply isFrameReady_true in Hr.
  destruct (slice_header_fcode _ Hr)
    as (t1 & t0 & p1 & p0 & l1 & l0 & u & f & rest & _ & Hs7 & Hs8 & Hsf).
  rewrite Hs7 in Hh. cbn [unpack_HHHB] in Hh. inversion Hh; subst h.
  exists f, rest. split; [exact Hsf|].
  unfold decode_data. unfold _hsize at 1.
  replace (7 <? py_len (_buffer st)) with true
    by (symmetry; apply Z.ltb_lt; exact Hr).
  rewrite Hs8. reflexivity.
Qed.

Lemma decode_data_reads_header_witness :
  isFrameReady (Framer zero_length_frame zero_header) = true /\
  decode_data zero_length_frame =
  Some [("tid"%string, 1); ("pid"%string, 0); ("length"%string, 0);
        ("unit"%string, 17); ("fcode"%string, 1)].
Proof.
  split; [reflexivity|].
  destruct (@decode_data_reads_header (Framer zero_length_frame zero_header)
              (Mbap 1 0 0 17) eq_refl eq_refl) as (fcb & rest & Hs & Hd).
  cbn in Hs. inversion Hs; subst. exact Hd.
Defined.

(* ------------------------------------------------------------------ *)
(** ** Several frames in one buffer *)

Lemma buildPacket_shape (m : message) (p : bytes) :
  buildPacket m = Some p ->
  exists hdr fcb,
    p = hdr ++ fcb :: m_encode m /\
    unpack_HHHB hdr = Some (header_of m) /\
    pack_B (m_function_code m) = Some [fcb].
Proof.
  intros Hp. pose proof (buildPacket_some_wf _ Hp) as Hwf.
  destruct (buildPacket_wf Hwf) as (hdr & fcb & Hb & Hh & Hf).
  rewrite Hb in Hp. inversion Hp; subst p. clear Hp.
  exists hdr, fcb. split; [reflexivity|]. split; [exact Hh|].
  destruct Hwf as (_ & _ & _ & _ & Hfc).
  destruct (pack_B_ok Hfc) as (b & Eb & Ub). rewrite Eb.
  assert (b = fcb); [|subst; reflexivity].
  unfold byte_to_Z in *.
  pose proof (Byte.of_to_N b) as E1. pose proof (Byte.of_to_N fcb) as E2.
  assert (Byte.to_N b = Byte.to_N fcb) as E by lia.
  rewrite E in E1. congruence.
Qed.

Section Stream.

Variable R : Type.
Variable decode : bytes -> option R.
Variable function_code : R -> Z.
Variable _validate_unit_id : framer -> list Z -> bool -> bool.

Local Abbreviation loop :=
  (process_loop decode function_code _validate_unit_id).
Local Abbreviation pip :=
  (processIncomingPacket decode function_code _validate_unit_id).

(** One turn of the loop on a complete, accepted, decodable frame. *)
Lemma process_loop_head (fuel : nat) (hdr body rest : bytes) (h hdr0 : mbap)
    (units : list Z) (single : bool) (cb : list (delivered R)) (r : R) :
  (length (hdr ++ body ++ rest) < fuel)%nat ->
  unpack_HHHB hdr = Some h ->
  len h = py_len body + 1 ->
  body <> [] ->
  _validate_unit_id (Framer (hdr ++ body ++ rest) h) units single = true ->
  decode body = Some r ->
  loop fuel (Framer (hdr ++ body ++ rest) hdr0) units single cb =
  loop (S (length rest)) (Framer rest zero_header) units single
       (cb ++ [Delivered r (tid h) (pid h) (uid h)]).
Proof.
  intros Hf Hh Hl Hb Hv Hd.
  pose proof (@head_checkFrame R hdr body rest h Hh Hl Hb hdr0) as Hc.
  pose proof (@head_getFrame hdr body rest h Hh Hl) as Hg.
  pose proof (@head_advanceFrame hdr body rest h Hh Hl) as Ha.
  erewrite process_loop_deliver; try exact Hc; try exact Hv.
  - rewrite Ha. reflexivity.
  - exact Hf.
  - apply isFrameReady_true. cbn [_buffer]. rewrite !py_len_app.
    pose proof (unpack_HHHB_length _ Hh) as L.
    pose proof (py_len_nonneg rest).
    assert (1 <= py_len body)
      by (destruct body; [congruence | unfold py_len; cbn [length]; lia]).
    unfold py_len at 1. rewrite L. lia.
  - rewrite Hg. exact Hd.
Qed.

(** The loop on the packets of a list of messages. *)
Lemma process_loop_packets (ms : list message) :
  forall ps ds units single cb fuel,
    build_packets ms = Some ps ->
    map (decoded decode) ms = map Some ds ->
    (forall m b, In m ms ->
       _validate_unit_id (Framer b (header_of m)) units single = true) ->
    (length (concat ps) < fuel)%nat ->
    loop fuel (Framer (concat ps) zero_header) units single cb =
    Some (Framer [] zero_header, cb ++ ds, Returned).
Proof.
  induction ms as [|m ms IH]; intros ps ds units single cb fuel Hps Hds Hv Hf.
  - cbn in Hps. inversion Hps; subst ps.
    destruct ds; [|discriminate]. rewrite app_nil_r.
    apply process_loop_reset. lia.
  - cbn [build_packets] in Hps.
    destruct (buildPacket m) as [p|] eqn:Ep; [|discriminate].
    destruct (build_packets ms) as [ps'|] eqn:Eps; [|discriminate].
    inversion Hps; subst ps. clear Hps.
    destruct ds as [|d ds]; [discriminate|].
    cbn [map] in Hds. inversion Hds as [[Hd Hds']]. clear Hds.
    destruct (buildPacket_shape _ Ep) as (hdr & fcb & -> & Hh & Hfc).
    unfold decoded in Hd. rewrite Hfc in Hd. cbn [app] in Hd.
    destruct (decode (fcb :: m_encode m)) as [r|] eqn:Er; [|discriminate].
    inversion Hd; subst d. clear Hd.
    cbn [concat] in Hf |- *. rewrite <- app_assoc in Hf |- *.
    cbn [app] in Hf |- *.
    change (hdr ++ fcb :: m_encode m ++ concat ps')
      with (hdr ++ (fcb :: m_encode m) ++ concat ps') in Hf |- *.
    rewrite (@process_loop_head fuel hdr (fcb :: m_encode m) (concat ps')
               (header_of m) zero_header units single cb r); auto.
    + rewrite (IH ps' ds units single _ _ eq_refl Hds'); auto.
      * rewrite <- app_assoc. reflexivity.
      * intros m' b Hin. apply Hv. right. exact Hin.
    + unfold header_of, py_len. cbn [len length]. lia.
    + discriminate.
    + apply Hv. left. reflexivity.
Qed.

(** X9: the packets of any list of messages, received in one piece by a
    new framer, are all handed to the callback, in the order they were
    sent, each decoded and with the tid, pid and uid of its message; the
    call returns and the buffer is left empty. *)
Theorem whole_stream_delivered (ms : list message) (ps : list bytes)
    (ds : list (delivered R)) (unit : unit_arg) (single : bool) :
  build_packets ms = Some ps ->
  map (decoded decode) ms = map Some ds ->
  (forall m b, In m ms ->
     _validate_unit_id (Framer b (header_of m)) (unit_list unit) single
     = true) ->
  pip init (concat ps) unit single = Some (Framer [] zero_header, ds, Returned).
Proof.
  intros Hps Hds Hv. unfold processIncomingPacket, addToFrame.
  cbn [init _buffer _header app].
  rewrite (@process_loop_packets ms ps ds (unit_list unit) single [] _
             Hps Hds Hv); [reflexivity|lia].
Qed.



End Stream.

Lemma whole_stream_delivered_witness :
  build_packets [Message 1 0 17 1 [x01; x01]; Message 2 0 17 3 [x02; x00; x2a]]
  = Some [read_coils_response;
          [x00; x02; x00; x00; x00; x05; x11; x03; x02; x00; x2a]] /\
  processIncomingPacket pdu_decode pdu_function_code spec_validate_unit_id
    init
    (read_coils_response ++
     [x00; x02; x00; x00; x00; x05; x11; x03; x02; x00; x2a])
    (OneUnit 17) false =
  Some (Framer [] zero_header,
        [Delivered [x01; x01; x01] 1 0 17;
         Delivered [x03; x02; x00; x2a] 2 0 17], Returned).
Proof.
  split; [reflexivity|].
  refine (@whole_stream_delivered bytes pdu_decode pdu_function_code
            spec_validate_unit_id
            [Message 1 0 17 1 [x01; x01]; Message 2 0 17 3 [x02; x00; x2a]]
            [read_coils_response;
             [x00; x02; x00; x00; x00; x05; x11; x03; x02; x00; x2a]]
            [Delivered [x01; x01; x01] 1 0 17;
             Delivered [x03; x02; x00; x2a] 2 0 17]
            (OneUnit 17) false eq_refl eq_refl _).
  intros m b [<-|[<-|[]]]; reflexivity.
Defined.


(* ------------------------------------------------------------------ *)
(** ** What follows a delivered frame *)

Section After.

Variable R : Type.
Variable decode : bytes -> option R.
Variable function_code : R -> Z.
Variable _validate_unit_id : framer -> list Z -> bool -> bool.

Local Abbreviation loop :=
  (process_loop decode function_code _validate_unit_id).
Local Abbreviation pip :=
  (processIncomingPacket decode function_code _validate_unit_id).

(** X11: a complete frame followed by the beginning of the next one, its
    header there and its body not yet whole: the first frame is delivered,
    the received part of the second is discarded, and the call returns
    with an empty buffer. *)
Theorem partial_frame_after_frame_is_discarded (st : framer)
    (hdr body rest : bytes) (h h2 : mbap) (unit : unit_arg) (single : bool)
    (r : R) :
  _buffer st = [] ->
  unpack_HHHB hdr = Some h ->
  len h = py_len body + 1 ->
  body <> [] ->
  _validate_unit_id (Framer (hdr ++ body ++ rest) h) (unit_list unit) single
    = true ->
  decode body = Some r ->
  7 < py_len rest ->
  unpack_HHHB (slice rest 0 _hsize) = Some h2 ->
  2 <= len h2 ->
  py_len rest - 6 < len h2 ->
  pip st (hdr ++ body ++ rest) unit single =
  Some (Framer [] zero_header, [Delivered r (tid h) (pid h) (uid h)],
        Returned).
Proof.
  intros Hst Hh Hl Hb Hv Hd Hr Hh2 H2 Hi.
  rewrite (@processIncomingPacket_head R decode function_code
             _validate_unit_id st hdr body rest h unit single r); auto.
  assert (Hready : isFrameReady (Framer rest zero_header) = true)
    by (apply isFrameReady_true; exact Hr).
  eapply process_loop_check_failed; [cbn [_buffer]; lia | exact Hready |].
  apply (@checkFrame_incomplete R (Framer rest zero_header) h2 Hready Hh2 H2
           Hi).
Qed.

(** X12: a complete frame followed by a complete frame the decoder
    rejects: the first frame has been delivered when the exception is
    raised, and the buffer starts at the rejected frame, nothing of it or
    of what follows consumed. *)
Theorem delivered_before_decode_error (st : framer)
    (hdr body rest : bytes) (h h2 : mbap) (unit : unit_arg) (single : bool)
    (r : R) :
  _buffer st = [] ->
  unpack_HHHB hdr = Some h ->
  len h = py_len body + 1 ->
  body <> [] ->
  _validate_unit_id (Framer (hdr ++ body ++ rest) h) (unit_list unit) single
    = true ->
  decode body = Some r ->
  7 < py_len rest ->
  unpack_HHHB (slice rest 0 _hsize) = Some h2 ->
  2 <= len h2 <= py_len rest - 6 ->
  _validate_unit_id (Framer rest h2) (unit_list unit) single = true ->
  decode (getFrame (Framer rest h2)) = None ->
  pip st (hdr ++ body ++ rest) unit single =
  Some (Framer rest h2, [Delivered r (tid h) (pid h) (uid h)],
        Raised (ModbusIOException "Unable to decode request")).
Proof.
  intros Hst Hh Hl Hb Hv Hd Hr Hh2 H2 Hv2 Hd2.
  rewrite (@processIncomingPacket_head R decode function_code
             _validate_unit_id st hdr body rest h unit single r); auto.
  assert (Hready : isFrameReady (Framer rest zero_header) = true)
    by (apply isFrameReady_true; exact Hr).
  apply (@process_loop_decode_failed R decode function_code
           _validate_unit_id _ (Framer rest zero_header) (Framer rest h2)
           (unit_list unit) single _); auto.
  apply (@checkFrame_complete R (Framer rest zero_header) h2 Hready Hh2 H2).
Qed.

End After.

Lemma partial_frame_after_frame_is_discarded_witness :
  7 < py_len fragment_1 /\
  processIncomingPacket pdu_decode pdu_function_code spec_validate_unit_id
    init (read_coils_response ++ fragment_1) (OneUnit 17) false =
  Some (Framer [] zero_header, [Delivered [x01; x01; x01] 1 0 17], Returned).
Proof.
  assert (Hr : 7 < py_len fragment_1) by (cbn; lia).
  split; [exact Hr|].
  assert (Hi : py_len fragment_1 - 6 < len (Mbap 1 0 4 17)) by (cbn; lia).
  assert (H2 : 2 <= len (Mbap 1 0 4 17)) by (cbn; lia).
  assert (Hb : [x01; x01; x01] <> @nil byte) by discriminate.
  exact (@partial_frame_after_frame_is_discarded bytes pdu_decode
           pdu_function_code spec_validate_unit_id init
           [x00; x01; x00; x00; x00; x04; x11] [x01; x01; x01] fragment_1
           (Mbap 1 0 4 17) (Mbap 1 0 4 17) (OneUnit 17) false
           [x01; x01; x01] eq_refl eq_refl eq_refl Hb eq_refl eq_refl Hr
           eq_refl H2 Hi).
Defined.

Lemma delivered_before_decode_error_witness :
  pdu_decode (getFrame (Framer undecodable_frame (Mbap 1 0 2 17))) = None /\
  processIncomingPacket pdu_decode pdu_function_code spec_validate_unit_id
    init (read_coils_response ++ undecodable_frame) (OneUnit 17) false =
  Some (Framer undecodable_frame (Mbap 1 0 2 17),
        [Delivered [x01; x01; x01] 1 0 17],
        Raised (ModbusIOException "Unable to decode request")).
Proof.
  split; [reflexivity|].
  assert (Hr : 7 < py_len undecodable_frame) by (cbn; lia).
  assert (H2 : 2 <= len (Mbap 1 0 2 17) <= py_len undecodable_frame - 6)
    by (cbn; lia).
  assert (Hb : [x01; x01; x01] <> @nil byte) by discriminate.
  exact (@delivered_before_decode_error bytes pdu_decode
           pdu_function_code spec_validate_unit_id init
           [x00; x01; x00; x00; x00; x04; x11] [x01; x01; x01]
           undecodable_frame (Mbap 1 0 4 17) (Mbap 1 0 2 17) (OneUnit 17)
           false [x01; x01; x01] eq_refl eq_refl eq_refl Hb eq_refl eq_refl
           Hr eq_refl H2 eq_refl eq_refl).
Defined.

(* ------------------------------------------------------------------ *)
(** ** What every call keeps *)

Section Keeps.

Variable R : Type.
Variable decode : bytes -> option R.
Variable function_code : R -> Z.
Variable _validate_unit_id : framer -> list Z -> bool -> bool.

Local Abbreviation loop :=
  (process_loop decode function_code _validate_unit_id).
Local Abbreviation pip :=
  (processIncomingPacket decode function_code _validate_unit_id).

(** The buffer [advanceFrame] leaves is an end of the buffer it had. *)
Lemma advanceFrame_suffix (st : framer) :
  0 <= len (_header st) ->
  exists pre,
    _buffer st = pre ++ _buffer (advanceFrame st) /\
    length pre = Nat.min (Z.to_nat (6 + len (_header st)))
                         (length (_buffer st)).
Proof.
  intros H. rewrite advanceFrame_buffer by assumption.
  exists (firstn (Z.to_nat (6 + len (_header st))) (_buffer st)).
  split; [symmetry; apply firstn_skipn | apply length_firstn].
Qed.

(** Through the loop the buffer only loses bytes at its front, and every
    delivery but the last costs eight of them or more. *)
Lemma process_loop_consumes (fuel : nat) :
  forall st units single cb st1 ds o,
    0 <= len (_header st) ->
    loop fuel st units single cb = Some (st1, ds, o) ->
    exists pre,
      _buffer st = pre ++ _buffer st1 /\
      (8 * length ds <= 8 * length cb + length pre + 8)%nat.
Proof.
  induction fuel as [|fuel IH]; intros st units single cb st1 ds o H0 H;
    [discriminate|].
  cbn [process_loop] in H.
  destruct (isFrameReady st) eqn:Hr.
  - pose proof (checkFrameP R st) as V.
    destruct (checkFrame R st) as [sta res].
    inversion V as [Hn|h _ Hh Hl Hsta|h _ Hh Hl Hsta|h _ Hh Hl Hi Hsta];
      subst sta res.
    + congruence.
    + apply IH in H; [|cbn; lia]. destruct H as (pre & Hpre & Hcount).
      cbn [resetFrame _buffer] in Hpre. destruct pre; [|discriminate].
      cbn [app] in Hpre. rewrite <- Hpre.
      exists (_buffer st). rewrite app_nil_r. split; [reflexivity|].
      cbn [length] in Hcount. lia.
    + destruct (_validate_unit_id _ units single).
      * destruct (_process_cases decode function_code
                    (Framer (_buffer st) h) false)
          as [(e & He)|(r & He & _)]; rewrite He in H.
        -- inversion H; subst. exists []. split; [reflexivity|].
           cbn [length]. lia.
        -- destruct (@advanceFrame_suffix (Framer (_buffer st) h))
             as (pre1 & Hpre1 & Hlen1); [cbn [_header]; lia|].
           cbn [_buffer _header] in Hpre1, Hlen1.
           apply IH in H; [|cbn; lia]. destruct H as (pre & Hpre & Hcount).
           exists (pre1 ++ pre). rewrite <- app_assoc, <- Hpre.
           split; [exact Hpre1|].
           rewrite length_app in Hcount. rewrite length_app.
           cbn [length] in Hcount.
           apply isFrameReady_true in Hr. unfold py_len in Hr, Hl. lia.
      * apply IH in H; [|cbn; lia]. destruct H as (pre & Hpre & Hcount).
        cbn [resetFrame _buffer] in Hpre. destruct pre; [|discriminate].
        cbn [app] in Hpre. rewrite <- Hpre.
        exists (_buffer st). rewrite app_nil_r. split; [reflexivity|].
        cbn [length] in Hcount. lia.
    + apply IH in H; [|cbn; lia]. destruct H as (pre & Hpre & Hcount).
      cbn [resetFrame _buffer] in Hpre. destruct pre; [|discriminate].
      cbn [app] in Hpre. rewrite <- Hpre.
      exists (_buffer st). rewrite app_nil_r. split; [reflexivity|].
      cbn [length] in Hcount. lia.
  - destruct (negb (py_len (_buffer st) =? 0));
      [|inversion H; subst; exists []; split; [reflexivity|cbn; lia]].
    destruct (len (_header st) <? 2);
      [|inversion H; subst; exists []; split; [reflexivity|cbn; lia]].
    destruct (_process_cases decode function_code st true)
      as [(e & He)|(r & He & _)]; rewrite He in H; inversion H; subst.
    + exists []. split; [reflexivity|cbn; lia].
    + destruct (advanceFrame_suffix st H0) as (pre1 & Hpre1 & _).
      exists pre1. split; [exact Hpre1|].
      rewrite length_app. cbn [length]. lia.
Qed.

(** X13: whatever a call does, returning or raising, what it leaves in
    the buffer is an end of the bytes the framer held and received: bytes
    are only ever dropped from the front, never added, changed or
    reordered. *)
Theorem buffer_is_suffix (st : framer) (data : bytes) (unit : unit_arg)
    (single : bool) (st1 : framer) (ds : list (delivered R))
    (o : outcome R) :
  0 <= len (_header st) ->
  pip st data unit single = Some (st1, ds, o) ->
  exists pre, _buffer st ++ data = pre ++ _buffer st1.
Proof.
  intros H0 H. unfold processIncomingPacket in H.
  apply process_loop_consumes in H; [|exact H0].
  destruct H as (pre & Hpre & _). exists pre. exact Hpre.
Qed.

(** X14: a call makes at most one call of the callback for every eight
    bytes it takes from the front of the buffer, and one more. *)
Theorem deliveries_are_bounded (st : framer) (data : bytes) (unit : unit_arg)
    (single : bool) (st1 : framer) (ds : list (delivered R))
    (o : outcome R) :
  0 <= len (_header st) ->
  pip st data unit single = Some (st1, ds, o) ->
  (8 * length ds + length (_buffer st1) <= length (_buffer st ++ data) + 8)%nat.
Proof.
  intros H0 H. unfold processIncomingPacket in H.
  apply process_loop_consumes in H; [|exact H0].
  destruct H as (pre & Hpre & Hcount).
  cbn [addToFrame _buffer] in Hpre. rewrite Hpre, length_app.
  cbn [length] in Hcount. lia.
Qed.

(** When the loop returns the header is zero. *)
Lemma process_loop_returned_header (fuel : nat) :
  forall st units single cb st1 ds,
    header_inv st ->
    loop fuel st units single cb = Some (st1, ds, Returned) ->
    _header st1 = zero_header.
Proof.
  induction fuel as [|fuel IH]; intros st units single cb st1 ds Hinv H;
    [discriminate|].
  cbn [process_loop] in H.
  destruct (isFrameReady st) eqn:Hr.
  - pose proof (checkFrameP R st) as V.
    destruct (checkFrame R st) as [sta res].
    inversion V as [Hn|h _ Hh Hl Hsta|h _ Hh Hl Hsta|h _ Hh Hl Hi Hsta];
      subst sta res.
    + congruence.
    + eapply IH; [|exact H]. apply header_inv_reset.
    + destruct (_validate_unit_id _ units single);
        [|eapply IH; [|exact H]; apply header_inv_reset].
      destruct (_process_cases decode function_code
                  (Framer (_buffer st) h) false)
        as [(e & He)|(r & He & _)]; rewrite He in H.
      * discriminate.
      * eapply IH; [|exact H]. apply header_inv_advance.
    + eapply IH; [|exact H]. apply header_inv_reset.
  - apply isFrameReady_false in Hr.
    assert (Hz : py_len (_buffer st) <= 7 -> _header st = zero_header).
    { intros _. destruct Hinv as [Hz|Hz]; [exact Hz|lia]. }
    destruct (negb (py_len (_buffer st) =? 0));
      [|inversion H; subst; auto].
    destruct (len (_header st) <? 2);
      [|inversion H; subst; auto].
    destruct (_process_cases decode function_code st true)
      as [(e & He)|(r & He & _)]; rewrite He in H; inversion H; subst.
    reflexivity.
Qed.

(** X15: between two calls no part of a frame is kept.  In every state
    the framer can reach, a call that returns leaves a zero header and at
    most one byte in the buffer. *)
Theorem nothing_kept_between_calls (st : framer) (data : bytes)
    (unit : unit_arg) (single : bool) (st1 : framer)
    (ds : list (delivered R)) :
  reachable decode function_code _validate_unit_id st ->
  pip st data unit single = Some (st1, ds, Returned) ->
  _header st1 = zero_header /\ py_len (_buffer st1) <= 1.
Proof.
  intros Hreach H. unfold processIncomingPacket in H.
  pose proof (header_inv_add data
                (@reachable_header_inv R decode function_code
                   _validate_unit_id st Hreach)) as Hinv.
  split.
  - exact (@process_loop_returned_header _ _ _ _ _ _ _ Hinv H).
  - destruct (@process_loop_inv R decode function_code _validate_unit_id
                _ _ _ _ _ _ _ _ Hinv H) as (_ & Hlen).
    exact (Hlen eq_refl).
Qed.

(** X16: a call that leaves between one and seven bytes in the buffer of
    a framer with a zero header does not wait for more.  It decodes the
    buffer as it is, without the unit check: it raises when the decoder
    fails, it raises when the decoded function code is below 0x80, and
    otherwise it calls the callback with a zero header and drops the
    first six bytes. *)
Theorem short_buffer_is_processed (st : framer) (data : bytes)
    (unit : unit_arg) (single : bool) :
  _header st = zero_header ->
  0 < py_len (_buffer st ++ data) <= 7 ->
  pip st data unit single =
  match decode (_buffer st ++ data) with
  | None =>
      Some (Framer (_buffer st ++ data) zero_header, [],
            Raised (ModbusIOException "Unable to decode request"))
  | Some r =>
      if function_code r <? 128 then
        Some (Framer (_buffer st ++ data) zero_header, [],
              Raised (InvalidMessageReceivedException r))
      else
        Some (Framer (skipn 6 (_buffer st ++ data)) zero_header,
              [Delivered r 0 0 0], Returned)
  end.
Proof.
  intros Hz Hlen. unfold processIncomingPacket, addToFrame. rewrite Hz.
  cbn [process_loop _buffer _header].
  replace (isFrameReady (Framer (_buffer st ++ data) zero_header))
    with false
    by (symmetry; apply isFrameReady_false; cbn [_buffer]; lia).
  replace (py_len (_buffer st ++ data) =? 0) with false
    by (symmetry; apply Z.eqb_neq; lia).
  cbn [negb len zero_header]. change (0 <? 2) with true. cbv iota.
  unfold _process. cbn [getRawFrame _buffer andb].
  destruct (decode (_buffer st ++ data)) as [r|]; [|reflexivity].
  destruct (function_code r <? 128); [reflexivity|].
  unfold advanceFrame, populateResult. cbn [_buffer _header len tid pid uid
    zero_header]. rewrite slice_from_nonneg by (unfold _hsize; lia).
  reflexivity.
Qed.

End Keeps.

Lemma buffer_is_suffix_witness :
  0 <= len (_header init) /\
  exists pre,
    _buffer init ++ (read_coils_response ++ undecodable_frame) =
    pre ++ undecodable_frame.
Proof.
  assert (H0 : 0 <= len (_header init)) by (cbn; lia).
  split; [exact H0|].
  exact (@buffer_is_suffix bytes pdu_decode pdu_function_code
           spec_validate_unit_id init
           (read_coils_response ++ undecodable_frame) (OneUnit 17) false
           (Framer undecodable_frame (Mbap 1 0 2 17))
           [Delivered [x01; x01; x01] 1 0 17]
           (Raised (ModbusIOException "Unable to decode request"))
           H0 eq_refl).
Defined.

Lemma deliveries_are_bounded_witness :
  0 <= len (_header init) /\
  (8 * length [Delivered [x01; x01; x01] 1 0 17] +
   length (_buffer (Framer undecodable_frame (Mbap 1 0 2 17))) <=
   length (_buffer init ++ (read_coils_response ++ undecodable_frame)) + 8)%nat.
Proof.
  assert (H0 : 0 <= len (_header init)) by (cbn; lia).
  split; [exact H0|].
  exact (@deliveries_are_bounded bytes pdu_decode pdu_function_code
           spec_validate_unit_id init
           (read_coils_response ++ undecodable_frame) (OneUnit 17) false
           (Framer undecodable_frame (Mbap 1 0 2 17))
           [Delivered [x01; x01; x01] 1 0 17]
           (Raised (ModbusIOException "Unable to decode request"))
           H0 eq_refl).
Defined.

Lemma nothing_kept_between_calls_witness :
  reachable pdu_decode pdu_function_code spec_validate_unit_id init /\
  _header (Framer [] zero_header) = zero_header /\
  py_len (_buffer (Framer [] zero_header)) <= 1.
Proof.
  assert (Hr : reachable pdu_decode pdu_function_code spec_validate_unit_id
                 init) by constructor.
  split; [exact Hr|].
  exact (@nothing_kept_between_calls bytes pdu_decode pdu_function_code
           spec_validate_unit_id init (read_coils_response ++ fragment_1)
           (OneUnit 17) false (Framer [] zero_header)
           [Delivered [x01; x01; x01] 1 0 17] Hr eq_refl).
Defined.

Lemma short_buffer_is_processed_witness :
  0 < py_len (_buffer init ++ fragment_2) <= 7 /\
  processIncomingPacket pdu_decode pdu_function_code spec_validate_unit_id
    init fragment_2 (OneUnit 17) false =
  Some (Framer fragment_2 zero_header, [],
        Raised (InvalidMessageReceivedException [x01; x01])).
Proof.
  assert (Hl : 0 < py_len (_buffer init ++ fragment_2) <= 7) by (cbn; lia).
  split; [exact Hl|].
  exact (@short_buffer_is_processed bytes pdu_decode pdu_function_code
           spec_validate_unit_id init fragment_2 (OneUnit 17) false
           eq_refl Hl).
Defined.

(* ------------------------------------------------------------------ *)
(** ** What reaches the callback *)

Section Checked.

Variable R : Type.
Variable decode : bytes -> option R.
Variable function_code : R -> Z.
Variable _validate_unit_id : framer -> list Z -> bool -> bool.

Local Abbreviation loop :=
  (process_loop decode function_code _validate_unit_id).
Local Abbreviation pip :=
  (processIncomingPacket decode function_code _validate_unit_id).

Lemma process_loop_checked (P : delivered R -> Prop) (units : list Z)
    (single : bool) :
  (forall b h r,
     7 < py_len b ->
     unpack_HHHB (slice b 0 _hsize) = Some h ->
     2 <= len h <= py_len b - 6 ->
     _validate_unit_id (Framer b h) units single = true ->
     decode (getFrame (Framer b h)) = Some r ->
     P (Delivered r (tid h) (pid h) (uid h))) ->
  (forall r, 128 <= function_code r -> P (Delivered r 0 0 0)) ->
  forall fuel st cb st1 ds o,
    header_inv st ->
    Forall P cb ->
    loop fuel st units single cb = Some (st1, ds, o) ->
    Forall P ds.
Proof.
  intros Hframe Herr.
  induction fuel as [|fuel IH]; intros st cb st1 ds o Hinv Hcb H;
    [discriminate|].
  cbn [process_loop] in H.
  destruct (isFrameReady st) eqn:Hr.
  - pose proof (checkFrameP R st) as V.
    destruct (checkFrame R st) as [sta res].
    inversion V as [Hn|h _ Hh Hl Hsta|h _ Hh Hl Hsta|h _ Hh Hl Hi Hsta];
      subst sta res.
    + congruence.
    + eapply IH; [| |exact H]; [apply header_inv_reset|exact Hcb].
    + destruct (_validate_unit_id _ units single) eqn:Hv;
        [|eapply IH; [| |exact H]; [apply header_inv_reset|exact Hcb]].
      unfold _process in H.
      destruct (decode (getFrame (Framer (_buffer st) h))) as [r|] eqn:Hd.
      * cbn [andb] in H.
        eapply IH; [| |exact H]; [apply header_inv_advance|].
        apply Forall_app. split; [exact Hcb|].
        constructor; [|constructor].
        apply (Hframe (_buffer st) h r); auto.
        apply isFrameReady_true. exact Hr.
      * inversion H; subst. exact Hcb.
    + eapply IH; [| |exact H]; [apply header_inv_reset|exact Hcb].
  - apply isFrameReady_false in Hr.
    destruct (negb (py_len (_buffer st) =? 0));
      [|inversion H; subst; exact Hcb].
    destruct (len (_header st) <? 2);
      [|inversion H; subst; exact Hcb].
    assert (Hz : _header st = zero_header)
      by (destruct Hinv as [Hz|Hz]; [exact Hz|lia]).
    destruct (_process_cases decode function_code st true)
      as [(e & He)|(r & He & Hfc)]; rewrite He in H; inversion H; subst.
    + exact Hcb.
    + apply Forall_app. split; [exact Hcb|].
      constructor; [|constructor].
      unfold populateResult. rewrite Hz. apply Herr. apply Hfc. reflexivity.
Qed.

(** X17: whatever the callback receives has been checked.  In every state
    the framer can reach, each object a call delivers was decoded from a
    complete frame that passed the unit check and carries the tid, pid and
    uid of that frame, or comes from a buffer of at most seven bytes, with
    a function code of 0x80 or more and a zero header. *)
Theorem deliveries_are_checked (st : framer) (data : bytes)
    (unit : unit_arg) (single : bool) (st1 : framer)
    (ds : list (delivered R)) (o : outcome R) :
  reachable decode function_code _validate_unit_id st ->
  pip st data unit single = Some (st1, ds, o) ->
  Forall
    (fun d =>
       (exists b h,
          unpack_HHHB (slice b 0 _hsize) = Some h /\
          2 <= len h <= py_len b - 6 /\
          _validate_unit_id (Framer b h) (unit_list unit) single = true /\
          decode (getFrame (Framer b h)) = Some (response d) /\
          transaction_id d = tid h /\ protocol_id d = pid h /\
          unit_id d = uid h) \/
       (128 <= function_code (response d) /\
        transaction_id d = 0 /\ protocol_id d = 0 /\ unit_id d = 0))
    ds.
Proof.
  intros Hreach H. unfold processIncomingPacket in H.
  eapply process_loop_checked; [| | | |exact H].
  - intros b h r Hb Hh Hl Hv Hd. left. exists b, h. cbn. auto 10.
  - intros r Hfc. right. cbn. auto.
  - apply header_inv_add.
    exact (@reachable_header_inv R decode function_code _validate_unit_id
             st Hreach).
  - constructor.
Qed.

End Checked.

Lemma deliveries_are_checked_witness :
  reachable pdu_decode pdu_function_code spec_validate_unit_id init /\
  Forall
    (fun d : delivered bytes =>
       (exists b h,
          unpack_HHHB (slice b 0 _hsize) = Some h /\
          2 <= len h <= py_len b - 6 /\
          spec_validate_unit_id (Framer b h) (unit_list (OneUnit 17)) false
            = true /\
          pdu_decode (getFrame (Framer b h)) = Some (response d) /\
          transaction_id d = tid h /\ protocol_id d = pid h /\
          unit_id d = uid h) \/
       (128 <= pdu_function_code (response d) /\
        transaction_id d = 0 /\ protocol_id d = 0 /\ unit_id d = 0))
    [Delivered [x01; x01; x01] 1 0 17].
Proof.
  assert (Hr : reachable pdu_decode pdu_function_code spec_validate_unit_id
                 init) by constructor.
  split; [exact Hr|].
  exact (@deliveries_are_checked bytes pdu_decode pdu_function_code
           spec_validate_unit_id init read_coils_response (OneUnit 17) false
           (Framer [] zero_header) [Delivered [x01; x01; x01] 1 0 17]
           Returned Hr eq_refl).
Defined.
